(** * The instrumented BERT inference pipeline of [app/inference_server.py]

    A shallow embedding of the request pipeline (input normalisation in
    [predict], [BertInferenceEngine.load], [BertInferenceEngine.tokenize],
    [BertInferenceEngine.infer]) together with the Prometheus metrics it
    drives, followed by the properties of the specification.

    Conventions.
    - Python's exceptions are the type [exn]; a computation is a function
      from the process state to an [outcome] and a new state (monad [M]).
    - Python floats (metric values, wall-clock readings) are idealised as
      canonical rationals [Qc]; no property below depends on rounding.
    - [int64] tensors are nested lists of [Z]; the only arithmetic the
      source performs on them, [np.sum], wraps at 64 bits ([wrap64]).
    - The external collaborators (tokenizer, ONNX Runtime, NumPy's array
      conversion and random generator, the clock, the file system and the
      process environment) are the fields of [Env]. *)

From Stdlib Require Import ZArith QArith Qcanon Lia.
From stdpp Require Import gmap strings list fin_maps pretty.

Set Warnings "-register-all".

Local Open Scope string_scope.
Local Open Scope Z_scope.

(** ** Exceptions and outcomes *)

Inductive exn : Type :=
| KeyError (key : string)
| TypeError (msg : string)
| ValueError (msg : string)
| IndexError (msg : string)
| ValidationError (field : string)
| HTTPException (status_code : Z) (detail : string)
| ExternalError (name : string)   (* any other subclass of Exception *)
| BaseOnly (name : string).       (* KeyboardInterrupt, SystemExit, ... *)

(** [isinstance(e, Exception)]: what an [except Exception] clause catches. *)
Definition isinstance_Exception (e : exn) : bool :=
  match e with
  | BaseOnly _ => false
  | _ => true
  end.

Inductive outcome (A : Type) : Type :=
| Return (a : A)
| Raise (e : exn).
Arguments Return {A} a.
Arguments Raise {A} e.

(** ** Tensors *)

Inductive ndarray (A : Type) : Type :=
| Scalar (a : A)
| Arr (rows : list (ndarray A)).
Arguments Scalar {A} a.
Arguments Arr {A} rows.

Fixpoint entries {A} (a : ndarray A) : list A :=
  match a with
  | Scalar x => [x]
  | Arr rows => concat (map entries rows)
  end.

Fixpoint ndmap {A B} (f : A -> B) (a : ndarray A) : ndarray B :=
  match a with
  | Scalar x => Scalar (f x)
  | Arr rows => Arr (map (ndmap f) rows)
  end.

(** The shape of the nested list, read along the first element of each
    level, as [np.shape] does for a regular nesting. *)
Fixpoint shape {A} (a : ndarray A) : list nat :=
  match a with
  | Scalar _ => []
  | Arr rows =>
      length rows :: match rows with
                     | [] => []
                     | r :: _ => shape r
                     end
  end.

(** [len(a)]: the outer length; a 0-d array is unsized. *)
Definition len {A} (a : ndarray A) : outcome Z :=
  match a with
  | Scalar _ => Raise (TypeError "len() of unsized object")
  | Arr rows => Return (Z.of_nat (length rows))
  end.

Definition wrap64 (z : Z) : Z := (z + 2 ^ 63) mod 2 ^ 64 - 2 ^ 63.

Definition sum_list (l : list Z) : Z := foldr Z.add 0 l.

(** [int(np.sum(a))] for an [int64] array. *)
Definition np_sum (a : ndarray Z) : Z := wrap64 (sum_list (entries a)).

(** [a.astype(np.int64)] *)
Definition astype_int64 (a : ndarray Z) : ndarray Z := ndmap wrap64 a.

(** The nested list of a freshly filled array of dimensions [dims];
    [cell] gives the value at each multi-index. *)
Fixpoint build {A} (cell : list nat -> A) (dims : list nat) (idx : list nat)
  : ndarray A :=
  match dims with
  | [] => Scalar (cell (rev idx))
  | d :: ds => Arr (map (fun i => build cell ds (i :: idx)) (seq 0 d))
  end.

Arguments build : simpl never.

(** The shape that survives [tolist()]: nothing is left below an empty
    dimension. *)
Fixpoint list_shape (dims : list nat) : list nat :=
  match dims with
  | [] => []
  | d :: ds => d :: match d with O => [] | S _ => list_shape ds end
  end.

(** ** JSON values of a request body *)

Inductive pyval : Type :=
| PyNone
| PyBool (b : bool)
| PyInt (z : Z)
| PyFloat (q : Qc)
| PyStr (s : string)
| PyList (l : list pyval)
| PyDict (d : list (string * pyval)).

(** ** The metrics recorder *)

(** A labelled Counter, Gauge or Histogram is a finite map from label
    values to the child's state; a child that was never touched reads 0
    (no observation). *)
Record Metrics : Type := mkMetrics {
  REQUEST_COUNT : gmap (string * string) Qc;   (* labels: status, model *)
  REQUEST_LATENCY : gmap string (list Qc);     (* observations, latest first *)
  TOKENS_PROCESSED : gmap string Qc;
  BATCH_SIZE : gmap string (list Qc);
  MODEL_LOAD_TIME : gmap string Qc;
  ACTIVE_REQUESTS : gmap string Qc;
  GPU_MEMORY_USED : gmap (string * string) Qc; (* declared, never written *)
  QUEUE_SIZE : gmap string Qc                  (* declared, never written *)
}.

Definition value `{Countable K} (m : gmap K Qc) (l : K) : Qc :=
  default 0%Qc (m !! l).

Definition observations `{Countable K} (m : gmap K (list Qc)) (l : K) : list Qc :=
  default [] (m !! l).

Inductive Printed : Type :=
| WarningModelNotFound (model_path : string)
| ModelLoadedIn (load_time : Qc).

(** The process state: the metric registry, the number of clock readings
    and of random arrays drawn so far, and what was printed. *)
Record World : Type := mkWorld {
  metrics : Metrics;
  ticks : nat;
  draws : nat;
  stdout : list Printed
}.

Definition M (A : Type) : Type := World -> outcome A * World.

Definition ret {A} (a : A) : M A := fun w => (Return a, w).
Definition raise {A} (e : exn) : M A := fun w => (Raise e, w).
Definition bind {A B} (c : M A) (k : A -> M B) : M B :=
  fun w => match c w with
           | (Return a, w') => k a w'
           | (Raise e, w') => (Raise e, w')
           end.
Definition lift {A} (o : outcome A) : M A := fun w => (o, w).
Definition modify (f : World -> World) : M unit := fun w => (Return tt, f w).

Declare Scope py_scope.
Delimit Scope py_scope with py.
Notation "x <- c ;; k" := (bind c (fun x => k))
  (at level 100, c at next level, right associativity) : py_scope.
Notation "c ;; k" := (bind c (fun _ => k))
  (at level 100, right associativity) : py_scope.

(** [try: body  except Exception as e: handler(e)  finally: final] *)
Definition try_except_finally {A}
  (body : M A) (handler : exn -> M A) (final : M unit) : M A :=
  fun w =>
    let '(r, w1) :=
      match body w with
      | (Return a, w') => (Return a, w')
      | (Raise e, w') =>
          if isinstance_Exception e then handler e w' else (Raise e, w')
      end in
    match final w1 with
    | (Return _, w2) => (r, w2)
    | (Raise e', w2) => (Raise e', w2)
    end.

Definition with_metrics (f : Metrics -> Metrics) (w : World) : World :=
  mkWorld (f (metrics w)) (ticks w) (draws w) (stdout w).

Definition set_REQUEST_COUNT (f : gmap (string * string) Qc -> gmap (string * string) Qc)
  (m : Metrics) : Metrics :=
  mkMetrics (f (REQUEST_COUNT m)) (REQUEST_LATENCY m) (TOKENS_PROCESSED m)
    (BATCH_SIZE m) (MODEL_LOAD_TIME m) (ACTIVE_REQUESTS m)
    (GPU_MEMORY_USED m) (QUEUE_SIZE m).
Definition set_REQUEST_LATENCY (f : gmap string (list Qc) -> gmap string (list Qc))
  (m : Metrics) : Metrics :=
  mkMetrics (REQUEST_COUNT m) (f (REQUEST_LATENCY m)) (TOKENS_PROCESSED m)
    (BATCH_SIZE m) (MODEL_LOAD_TIME m) (ACTIVE_REQUESTS m)
    (GPU_MEMORY_USED m) (QUEUE_SIZE m).
Definition set_TOKENS_PROCESSED (f : gmap string Qc -> gmap string Qc)
  (m : Metrics) : Metrics :=
  mkMetrics (REQUEST_COUNT m) (REQUEST_LATENCY m) (f (TOKENS_PROCESSED m))
    (BATCH_SIZE m) (MODEL_LOAD_TIME m) (ACTIVE_REQUESTS m)
    (GPU_MEMORY_USED m) (QUEUE_SIZE m).
Definition set_BATCH_SIZE (f : gmap string (list Qc) -> gmap string (list Qc))
  (m : Metrics) : Metrics :=
  mkMetrics (REQUEST_COUNT m) (REQUEST_LATENCY m) (TOKENS_PROCESSED m)
    (f (BATCH_SIZE m)) (MODEL_LOAD_TIME m) (ACTIVE_REQUESTS m)
    (GPU_MEMORY_USED m) (QUEUE_SIZE m).
Definition set_MODEL_LOAD_TIME (f : gmap string Qc -> gmap string Qc)
  (m : Metrics) : Metrics :=
  mkMetrics (REQUEST_COUNT m) (REQUEST_LATENCY m) (TOKENS_PROCESSED m)
    (BATCH_SIZE m) (f (MODEL_LOAD_TIME m)) (ACTIVE_REQUESTS m)
    (GPU_MEMORY_USED m) (QUEUE_SIZE m).
Definition set_ACTIVE_REQUESTS (f : gmap string Qc -> gmap string Qc)
  (m : Metrics) : Metrics :=
  mkMetrics (REQUEST_COUNT m) (REQUEST_LATENCY m) (TOKENS_PROCESSED m)
    (BATCH_SIZE m) (MODEL_LOAD_TIME m) (f (ACTIVE_REQUESTS m))
    (GPU_MEMORY_USED m) (QUEUE_SIZE m).

(** [Counter.labels(...).inc(amount)]: a counter refuses to go down. *)
Definition Counter_inc `{Countable K}
  (upd : (gmap K Qc -> gmap K Qc) -> Metrics -> Metrics)
  (l : K) (amount : Qc) : M unit :=
  fun w =>
    let w' := with_metrics (upd (fun c => <[l := value c l]> c)) w in
    if Qclt_le_dec amount 0
    then (Raise (ValueError "Counters can only be incremented by non-negative amounts."), w')
    else (Return tt, with_metrics (upd (fun c => <[l := (value c l + amount)%Qc]> c)) w).

(** [Gauge.labels(...).inc()], [.dec()], [.set(v)] *)
Definition Gauge_inc (upd : (gmap string Qc -> gmap string Qc) -> Metrics -> Metrics)
  (l : string) : M unit :=
  modify (with_metrics (upd (fun g => <[l := (value g l + 1)%Qc]> g))).
Definition Gauge_dec (upd : (gmap string Qc -> gmap string Qc) -> Metrics -> Metrics)
  (l : string) : M unit :=
  modify (with_metrics (upd (fun g => <[l := (value g l - 1)%Qc]> g))).
Definition Gauge_set (upd : (gmap string Qc -> gmap string Qc) -> Metrics -> Metrics)
  (l : string) (v : Qc) : M unit :=
  modify (with_metrics (upd (fun g => <[l := v]> g))).

(** [Histogram.labels(...).observe(v)] *)
Definition Histogram_observe
  (upd : (gmap string (list Qc) -> gmap string (list Qc)) -> Metrics -> Metrics)
  (l : string) (v : Qc) : M unit :=
  modify (with_metrics (upd (fun h => <[l := v :: observations h l]> h))).

Definition print (p : Printed) : M unit :=
  modify (fun w => mkWorld (metrics w) (ticks w) (draws w) (stdout w ++ [p])).

(** ** External collaborators and configuration *)

Abbreviation TokenizedBatch := (gmap string (ndarray Z)).

(** A [BertTokenizer]: called with the texts and [max_length] (padding to
    [max_length], truncation enabled, NumPy tensors), it gives a
    [BatchEncoding] or raises. *)
Definition Tokenizer : Type := list string -> Z -> outcome TokenizedBatch.

(** An [ort.InferenceSession]: [run(None, feed)] gives the list of output
    tensors or raises. *)
Record InferenceSession : Type := mkSession {
  run : TokenizedBatch -> outcome (list (ndarray Qc))
}.

Inductive Provider : Type :=
| CUDAExecutionProvider (device_id : Z) (arena_extend_strategy : string)
    (gpu_mem_limit : Z) (cudnn_conv_algo_search : string)
| CPUExecutionProvider.

Inductive GraphOptimizationLevel : Type :=
| ORT_DISABLE_ALL | ORT_ENABLE_BASIC | ORT_ENABLE_EXTENDED | ORT_ENABLE_ALL.

Record SessionOptions : Type := mkSessionOptions {
  graph_optimization_level : GraphOptimizationLevel;
  intra_op_num_threads : Z;
  inter_op_num_threads : Z
}.

Record Env : Type := mkEnv {
  (** module constants read from the environment at import *)
  MODEL_PATH : string;
  MAX_SEQUENCE_LENGTH : Z;
  EXECUTION_PROVIDER : string;
  (** [int(os.getenv(name, default))] *)
  getenv_int : string -> string -> outcome Z;
  (** [os.path.exists] *)
  path_exists : string -> bool;
  (** [time.time()], by the number of earlier readings *)
  clock : nat -> Qc;
  (** [np.random.randn]: the cell at a multi-index of the n-th array drawn *)
  randn : nat -> list nat -> Qc;
  (** [np.array(v, dtype=np.int64)] *)
  np_array : pyval -> outcome (ndarray Z);
  (** [BertTokenizer.from_pretrained] *)
  from_pretrained : string -> outcome Tokenizer;
  (** [ort.InferenceSession(path, sess_options=..., providers=...)] *)
  ort_InferenceSession :
    string -> SessionOptions -> list Provider -> outcome InferenceSession
}.

(** ** Request and response models *)

Record InferenceRequest : Type := mkRequest {
  text : option string;
  texts : option (list string);
  inputs : option (gmap string pyval);
  include_embeddings : bool
}.

Record InferenceResponse : Type := mkResponse {
  embeddings : option (ndarray Qc);
  pooler_output : option (ndarray Qc);
  latency_ms : Qc;
  batch_size : Z;
  tokens_processed : Z
}.

(** The dictionary returned by [infer]. *)
Record InferResult : Type := mkResult {
  res_last_hidden_state : ndarray Qc;
  res_pooler_output : option (ndarray Qc);
  res_latency_ms : Qc;
  res_batch_size : Z;
  res_tokens_processed : Z
}.

Record BertInferenceEngine : Type := mkEngine {
  model_path : string;
  model_name : string;
  tokenizer : option Tokenizer;
  session : option InferenceSession;
  execution_provider : string
}.

(** [BertInferenceEngine.__init__] *)
Definition BertInferenceEngine_init (model_path execution_provider : string)
  : BertInferenceEngine :=
  mkEngine model_path "bert-base-uncased" None None execution_provider.

(** ** Primitive operations *)

(** [d[k]] on a dictionary *)
Definition getitem {V} (d : gmap string V) (k : string) : M V :=
  match d !! k with
  | Some v => ret v
  | None => raise (KeyError k)
  end.

(** [l[i]] on a list *)
Definition list_getitem {V} (l : list V) (i : nat) : M V :=
  match l !! i with
  | Some v => ret v
  | None => raise (IndexError "list index out of range")
  end.

Definition Z2Qc (z : Z) : Qc := Q2Qc (inject_Z z).

(** The dictionary of the three named tensors. *)
Definition feed (a b c : ndarray Z) : TokenizedBatch :=
  <["input_ids" := a]>
    (<["attention_mask" := b]> (<["token_type_ids" := c]> ∅)).

Section Pipeline.

Variable env : Env.

Definition time_time : M Qc :=
  fun w => (Return (clock env (ticks w)),
            mkWorld (metrics w) (S (ticks w)) (draws w) (stdout w)).

(** [time.sleep(d)]: only the clock notices. *)
Definition time_sleep (d : Qc) : M unit := ret tt.

(** [np.random.randn(d0, d1, ...).tolist()] *)
Definition np_random_randn (dims : list Z) : M (ndarray Qc) :=
  fun w =>
    if forallb (Z.leb 0) dims
    then (Return (build (randn env (draws w)) (map Z.to_nat dims) []),
          mkWorld (metrics w) (ticks w) (S (draws w)) (stdout w))
    else (Raise (ValueError "negative dimensions are not allowed"), w).

(** *** [BertInferenceEngine.load] *)

(** The [providers] list that [load] configures. *)
Definition providers_for (execution_provider : string) : list Provider :=
  if String.eqb execution_provider "CUDAExecutionProvider"
  then [CUDAExecutionProvider 0 "kNextPowerOfTwo" (4 * 1024 * 1024 * 1024)
          "EXHAUSTIVE";
        CPUExecutionProvider]
  else [CPUExecutionProvider].

Definition load (self : BertInferenceEngine) : M BertInferenceEngine :=
  (start_time <- time_time ;;
   tok <- lift (from_pretrained env "google-bert/bert-base-uncased") ;;
   let self := mkEngine (model_path self) (model_name self) (Some tok)
                 (session self) (execution_provider self) in
   let providers := providers_for (execution_provider self) in
   intra <- lift (getenv_int env "ONNX_INTRA_OP_THREADS" "4") ;;
   inter <- lift (getenv_int env "ONNX_INTER_OP_THREADS" "2") ;;
   let sess_options := mkSessionOptions ORT_ENABLE_ALL intra inter in
   self <- (if path_exists env (model_path self)
            then
              (s <- lift (ort_InferenceSession env (model_path self)
                            sess_options providers) ;;
               ret (mkEngine (model_path self) (model_name self)
                      (tokenizer self) (Some s) (execution_provider self)))
            else
              (print (WarningModelNotFound (model_path self)) ;;
               ret (mkEngine (model_path self) (model_name self)
                      (tokenizer self) None (execution_provider self)))) ;;
   t <- time_time ;;
   let load_time := (t - start_time)%Qc in
   Gauge_set set_MODEL_LOAD_TIME (model_name self) load_time ;;
   print (ModelLoadedIn load_time) ;;
   ret self)%py.

(** *** [BertInferenceEngine.tokenize] *)
Definition tokenize (self : BertInferenceEngine) (texts : list string)
  (max_length : Z) : M TokenizedBatch :=
  (match tokenizer self with
   | None => raise (TypeError "'NoneType' object is not callable")
   | Some tok =>
       encoded <- lift (tok texts max_length) ;;
       a <- getitem encoded "input_ids" ;;
       b <- getitem encoded "attention_mask" ;;
       c <- getitem encoded "token_type_ids" ;;
       ret (feed (astype_int64 a) (astype_int64 b) (astype_int64 c))
   end)%py.

(** *** [BertInferenceEngine.infer] *)

(** The statements of the [try] block. *)
Definition infer_try (self : BertInferenceEngine) (inputs : TokenizedBatch)
  : M InferResult :=
  (start_time <- time_time ;;
   (* Get batch size and token count *)
   ids <- getitem inputs "input_ids" ;;
   batch_size <- lift (len ids) ;;
   mask <- getitem inputs "attention_mask" ;;
   let tokens := np_sum mask in
   result <-
     match session self with
     | Some sess =>
         (* Run actual inference *)
         a <- getitem inputs "input_ids" ;;
         b <- getitem inputs "attention_mask" ;;
         c <- getitem inputs "token_type_ids" ;;
         outputs <- lift (run sess (feed a b c)) ;;
         o0 <- list_getitem outputs 0 ;;
         p <- (if (Z.of_nat (length outputs) >? 1)%Z
               then (o1 <- list_getitem outputs 1 ;; ret (Some o1))
               else ret None) ;;
         ret (o0, p)
     | None =>
         (* Mock inference for demo *)
         time_sleep (Q2Qc (5 # 100)) ;;
         h <- np_random_randn [batch_size; MAX_SEQUENCE_LENGTH env; 768] ;;
         p <- np_random_randn [batch_size; 768] ;;
         ret (h, Some p)
     end ;;
   t <- time_time ;;
   let latency := (t - start_time)%Qc in
   (* Record metrics *)
   Counter_inc set_REQUEST_COUNT ("success", model_name self) 1%Qc ;;
   Histogram_observe set_REQUEST_LATENCY (model_name self) latency ;;
   Counter_inc set_TOKENS_PROCESSED (model_name self) (Z2Qc tokens) ;;
   Histogram_observe set_BATCH_SIZE (model_name self) (Z2Qc batch_size) ;;
   ret (mkResult (fst result) (snd result) (latency * Z2Qc 1000)%Qc
          batch_size tokens))%py.

Definition infer_except (self : BertInferenceEngine) (e : exn) : M InferResult :=
  (Counter_inc set_REQUEST_COUNT ("error", model_name self) 1%Qc ;;
   raise e)%py.

Definition infer_finally (self : BertInferenceEngine) : M unit :=
  Gauge_dec set_ACTIVE_REQUESTS (model_name self).

Definition infer (self : BertInferenceEngine) (inputs : TokenizedBatch)
  : M InferResult :=
  (Gauge_inc set_ACTIVE_REQUESTS (model_name self) ;;
   try_except_finally (infer_try self inputs) (infer_except self)
     (infer_finally self))%py.

(** *** The lifespan of the application and the [predict] endpoint *)

(** The start-up half of [lifespan]: the value of the global [engine]. *)
Definition lifespan_startup : M (option BertInferenceEngine) :=
  (e <- load (BertInferenceEngine_init (MODEL_PATH env) (EXECUTION_PROVIDER env)) ;;
   ret (Some e))%py.

(** Truth value of an [Optional] dictionary, list or string. *)
Definition truthy_dict (d : option (gmap string pyval)) : bool :=
  match d with
  | Some m => negb (bool_decide (m = ∅))
  | None => false
  end.
Definition truthy_list {A} (l : option (list A)) : bool :=
  match l with
  | Some (_ :: _) => true
  | _ => false
  end.
Definition truthy_str (s : option string) : bool :=
  match s with
  | Some (String _ _) => true
  | _ => false
  end.

(** [Optional[list]] fields of the response model take a list or [None]. *)
Definition validate_Optional_list (field : string) (v : option (ndarray Qc))
  : M (option (ndarray Qc)) :=
  match v with
  | Some (Scalar _) => raise (ValidationError field)
  | _ => ret v
  end.

(** The branch of [predict] that handles the different input formats. *)
Definition predict_inputs (engine : BertInferenceEngine)
  (request : InferenceRequest) : M TokenizedBatch :=
  (if truthy_dict (inputs request) then
     (* Pre-tokenized inputs *)
     let d := default ∅ (inputs request) in
     v <- getitem d "input_ids" ;;
     a <- lift (np_array env v) ;;
     v <- getitem d "attention_mask" ;;
     b <- lift (np_array env v) ;;
     v <- getitem d "token_type_ids" ;;
     c <- lift (np_array env v) ;;
     ret (feed a b c)
   else if truthy_list (texts request) then
     (* Batch of texts *)
     tokenize engine (default [] (texts request)) (MAX_SEQUENCE_LENGTH env)
   else if truthy_str (text request) then
     (* Single text *)
     tokenize engine [default "" (text request)] (MAX_SEQUENCE_LENGTH env)
   else
     raise (HTTPException 400 "No input provided"))%py.

Definition predict (engine : option BertInferenceEngine)
  (request : InferenceRequest) : M InferenceResponse :=
  (match engine with
   | None => raise (HTTPException 503 "Model not loaded")
   | Some engine =>
       inputs <- predict_inputs engine request ;;
       result <- infer engine inputs ;;
       e <- validate_Optional_list "embeddings"
              (if include_embeddings request
               then Some (res_last_hidden_state result) else None) ;;
       p <- validate_Optional_list "pooler_output" (res_pooler_output result) ;;
       ret (mkResponse e p (res_latency_ms result) (res_batch_size result)
              (res_tokens_processed result))
   end)%py.

End Pipeline.

(** The status line FastAPI derives from the endpoint's outcome. *)
Definition http_status {A} (o : outcome A) : Z :=
  match o with
  | Return _ => 200
  | Raise (HTTPException status_code _) => status_code
  | Raise _ => 500
  end.


(** ** Vocabulary of the properties *)

(** [preserves g c]: running [c] never changes the reading [g] of the
    metric registry, whether [c] returns or raises. *)
Definition preserves {A X} (g : Metrics -> X) (c : M A) : Prop :=
  forall w, g (metrics (snd (c w))) = g (metrics w).

(** The state in which the [try] statement of [infer] starts. *)
Definition entered (self : BertInferenceEngine) (w : World) : World :=
  snd (Gauge_inc set_ACTIVE_REQUESTS (model_name self) w).

(** A tensor that [tolist()] turns into a list, not into a number. *)
Definition is_list {A} (a : ndarray A) : Prop :=
  match a with
  | Arr _ => True
  | Scalar _ => False
  end.

(** The attention mask of a well-formed tokenized batch: entries 0 or 1,
    fewer than 2^63 of them. *)
Definition attention_mask_ok (mask : ndarray Z) : Prop :=
  Forall (fun z => z = 0 \/ z = 1) (entries mask)
  /\ Z.of_nat (length (entries mask)) < 2 ^ 63.

(** Model execution goes through: in mock mode the configured maximum
    sequence length is a valid dimension; with a loaded session the third
    tensor is there and [run] returns at least one output, its first two
    outputs being proper tensors. *)
Definition execution_succeeds (env : Env) (self : BertInferenceEngine)
  (inputs : TokenizedBatch) : Prop :=
  match session self with
  | None => 0 <= MAX_SEQUENCE_LENGTH env
  | Some sess =>
      exists a b c o os,
        inputs !! "input_ids" = Some a /\
        inputs !! "attention_mask" = Some b /\
        inputs !! "token_type_ids" = Some c /\
        run sess (feed a b c) = Return (o :: os) /\
        is_list o /\ Forall is_list (take 1 os)
  end.

(** The metric samples of a successful call. *)
Definition record_success (name : string) (latency : Qc) (tokens batch_size : Z)
  (m : Metrics) : Metrics :=
  set_BATCH_SIZE (fun h => <[name := Z2Qc batch_size :: observations h name]> h)
    (set_TOKENS_PROCESSED (fun c => <[name := (value c name + Z2Qc tokens)%Qc]> c)
       (set_REQUEST_LATENCY (fun h => <[name := latency :: observations h name]> h)
          (set_REQUEST_COUNT
             (fun c => <[("success", name) := (value c ("success", name) + 1)%Qc]> c)
             m))).

(** The batch size and token count that the [try] block of [infer]
    evaluates first, or the exception their evaluation raises. *)
Definition counts (inputs : TokenizedBatch) : outcome (Z * Z) :=
  match inputs !! "input_ids" with
  | None => Raise (KeyError "input_ids")
  | Some ids =>
      match len ids with
      | Raise e => Raise e
      | Return batch_size =>
          match inputs !! "attention_mask" with
          | None => Raise (KeyError "attention_mask")
          | Some mask => Return (batch_size, np_sum mask)
          end
      end
  end.

(** What a failed call of [infer] leaves in the registry: one more
    error, and the tokens counter, the batch-size histogram, the latency
    histogram and the success count as they were. *)
Definition records_error_only (self : BertInferenceEngine) (w w' : World)
  : Prop :=
  TOKENS_PROCESSED (metrics w') = TOKENS_PROCESSED (metrics w)
  /\ BATCH_SIZE (metrics w') = BATCH_SIZE (metrics w)
  /\ REQUEST_LATENCY (metrics w') = REQUEST_LATENCY (metrics w)
  /\ value (REQUEST_COUNT (metrics w')) ("success", model_name self)
     = value (REQUEST_COUNT (metrics w)) ("success", model_name self)
  /\ value (REQUEST_COUNT (metrics w')) ("error", model_name self)
     = (value (REQUEST_COUNT (metrics w)) ("error", model_name self) + 1)%Qc.

(** The first of the three required tensor keys that a pre-tokenized
    object lacks. *)
Definition first_missing (d : gmap string pyval) : option string :=
  match d !! "input_ids", d !! "attention_mask", d !! "token_type_ids" with
  | None, _, _ => Some "input_ids"
  | Some _, None, _ => Some "attention_mask"
  | Some _, Some _, None => Some "token_type_ids"
  | Some _, Some _, Some _ => None
  end.

(** The request with every empty-but-present shape removed. *)
Definition drop_empty (request : InferenceRequest) : InferenceRequest :=
  mkRequest
    (match text request with Some "" => None | t => t end)
    (match texts request with Some [] => None | t => t end)
    (match inputs request with
     | Some d => if decide (d = ∅) then None else Some d
     | None => None
     end)
    (include_embeddings request).

(** The two halves of the [try] block of [infer] after the counts: the
    [if self.session: ... else: ...] statement, and the statements from the
    second clock reading to [return]. *)
Definition infer_execute (env : Env) (self : BertInferenceEngine)
  (inputs : TokenizedBatch) (batch_size : Z)
  : M (ndarray Qc * option (ndarray Qc)) :=
  (match session self with
   | Some sess =>
       a <- getitem inputs "input_ids" ;;
       b <- getitem inputs "attention_mask" ;;
       c <- getitem inputs "token_type_ids" ;;
       outputs <- lift (run sess (feed a b c)) ;;
       o0 <- list_getitem outputs 0 ;;
       p <- (if (Z.of_nat (length outputs) >? 1)%Z
             then (o1 <- list_getitem outputs 1 ;; ret (Some o1))
             else ret None) ;;
       ret (o0, p)
   | None =>
       time_sleep (Q2Qc (5 # 100)) ;;
       h <- np_random_randn env [batch_size; MAX_SEQUENCE_LENGTH env; 768] ;;
       p <- np_random_randn env [batch_size; 768] ;;
       ret (h, Some p)
   end)%py.

Definition infer_record_metrics (env : Env) (self : BertInferenceEngine)
  (start_time : Qc) (tokens batch_size : Z)
  (result : ndarray Qc * option (ndarray Qc)) : M InferResult :=
  (t <- time_time env ;;
   let latency := (t - start_time)%Qc in
   Counter_inc set_REQUEST_COUNT ("success", model_name self) 1%Qc ;;
   Histogram_observe set_REQUEST_LATENCY (model_name self) latency ;;
   Counter_inc set_TOKENS_PROCESSED (model_name self) (Z2Qc tokens) ;;
   Histogram_observe set_BATCH_SIZE (model_name self) (Z2Qc batch_size) ;;
   ret (mkResult (fst result) (snd result) (latency * Z2Qc 1000)%Qc
          batch_size tokens))%py.

(** The world after the first clock reading. *)
Definition ticked (w : World) : World :=
  mkWorld (metrics w) (S (ticks w)) (draws w) (stdout w).

(** [stateless c]: running [c] leaves the whole process state as it is. *)
Definition stateless {A} (c : M A) : Prop := forall w, snd (c w) = w.

(** A worker handles its requests one after another ([predict] never
    awaits): the state after a list of requests. *)
Definition serve (env : Env) (engine : option BertInferenceEngine)
  (requests : list InferenceRequest) (w : World) : World :=
  foldl (fun w request => snd (predict env engine request w)) w requests.

(** ** The remaining endpoints and the module preamble *)

(** The resolution of [MODEL_PATH] when the module is imported: [getenv] is
    the value of the environment variable, if set. *)
Definition resolve_MODEL_PATH (getenv : option string)
  (exists_ : string -> bool) : string :=
  let MODEL_PATH := default "/models/bert-base-uncased/model.onnx" getenv in
  if negb (exists_ MODEL_PATH) then
    let alt_path := "/models/bert-base-uncased/model.onnx" in
    if exists_ alt_path then alt_path else MODEL_PATH
  else MODEL_PATH.

Record HealthResponse : Type := mkHealth {
  status : string;
  model_loaded : bool
}.

(** [GET /health] *)
Definition health (engine : option BertInferenceEngine) : HealthResponse :=
  mkHealth "healthy"
    (match engine with
     | Some e => match session e with Some _ => true | None => false end
     | None => false
     end).

Record ModelInfo : Type := mkModelInfo {
  info_name : string;
  info_version : string;
  info_framework : string;
  info_execution_provider : string;
  info_max_sequence_length : Z
}.

(** [GET /v1/models/bert] *)
Definition model_info (env : Env) : ModelInfo :=
  mkModelInfo "bert-base-uncased" "1.0" "onnx" (EXECUTION_PROVIDER env)
    (MAX_SEQUENCE_LENGTH env).

(** The shut-down half of [lifespan]: the value of the global [engine]. *)
Definition lifespan_shutdown : option BertInferenceEngine := None.

(** ** The load tester of [tests/load_test.py] *)

Module LoadTester.

Record RequestResult : Type := mkRequestResult {
  success : bool;
  latency_ms : Qc;
  status_code : Z;
  error : string
}.

(** What [requests.post] does: a response with its status code, a
    [requests.Timeout], or another [requests.RequestException] with its
    message. *)
Inductive PostOutcome : Type :=
| Response (status_code : Z)
| Timeout
| RequestException (str_e : string).

(** [LoadTester._make_request], from the two clock readings and the
    outcome of the POST. *)
Definition _make_request (timeout : Z) (start_time now : Qc)
  (post : PostOutcome) : RequestResult :=
  match post with
  | Response status_code =>
      mkRequestResult (status_code =? 200)
        ((now - start_time) * Z2Qc 1000)%Qc status_code ""
  | Timeout => mkRequestResult false (Z2Qc (timeout * 1000)) 0 "timeout"
  | RequestException str_e => mkRequestResult false 0%Qc 0 str_e
  end.

(** The first statements of [LoadTester._analyze_results]. *)
Definition successful (results : list RequestResult) : list RequestResult :=
  List.filter success results.
Definition failed (results : list RequestResult) : list RequestResult :=
  List.filter (fun r => negb (success r)) results.

(** [r.error if r.error else f"http_{r.status_code}"] *)
Definition error_key (r : RequestResult) : string :=
  match error r with
  | "" => "http_" +:+ pretty (status_code r)
  | e => e
  end.

(** The loop that categorizes errors. *)
Definition error_counts (failed : list RequestResult) : gmap string Z :=
  foldl (fun error_counts r =>
           <[error_key r := default 0 (error_counts !! error_key r) + 1]>
             error_counts)
    ∅ failed.

Record Summary : Type := mkSummary {
  total_requests : Z;
  num_successful : Z;
  num_failed : Z;
  success_rate : Qc;
  total_time_seconds : Qc;
  requests_per_second : Qc;
  concurrency : Z
}.

(** The ["summary"] and ["errors"] entries of the analysis; the latency
    statistics (standard deviation, percentile indices computed in floating
    point) are left out. *)
Definition _analyze_results (results : list RequestResult)
  (total_time : Qc) (concurrency : Z) : Summary * gmap string Z :=
  let successful := successful results in
  let failed := failed results in
  (mkSummary
     (Z.of_nat (length results))
     (Z.of_nat (length successful))
     (Z.of_nat (length failed))
     (match results with
      | [] => 0%Qc
      | _ => (Z2Qc (Z.of_nat (length successful))
              / Z2Qc (Z.of_nat (length results)) * Z2Qc 100)%Qc
      end)
     total_time
     (if Qclt_le_dec 0 total_time
      then (Z2Qc (Z.of_nat (length results)) / total_time)%Qc
      else 0%Qc)
     concurrency,
   error_counts failed).

End LoadTester.

(** ** A concrete environment, for examples *)

Module Demo.

Fixpoint to_ndarray (v : pyval) : option (ndarray Z) :=
  match v with
  | PyInt z => Some (Scalar z)
  | PyBool b => Some (Scalar (if b then 1 else 0))
  | PyList l =>
      option_map Arr
        (foldr (fun x acc =>
                  match to_ndarray x, acc with
                  | Some a, Some r => Some (a :: r)
                  | _, _ => None
                  end) (Some []) l)
  | _ => None
  end.

(** Every level of the nesting holds elements of one shape. *)
Fixpoint regular {A} (a : ndarray A) : bool :=
  match a with
  | Scalar _ => true
  | Arr rows =>
      forallb regular rows
      && match rows with
         | [] => true
         | r :: rs => forallb (fun x => bool_decide (shape x = shape r)) rs
         end
  end.

(** Conversion of regular nested lists of integers (or booleans) that fit
    64 bits; anything else is refused. *)
Definition np_array (v : pyval) : outcome (ndarray Z) :=
  match to_ndarray v with
  | Some a =>
      if negb (regular a)
      then Raise (ValueError "inhomogeneous shape")
      else if forallb (fun z => (- 2 ^ 63 <=? z) && (z <? 2 ^ 63)) (entries a)
      then Return a
      else Raise (ExternalError "OverflowError")
  | None => Raise (TypeError "int() argument must be a string or a real number")
  end.

(** A toy tokenizer: one row per text, [CLS], one token per character,
    [SEP], padded with 0 or truncated to [max_length]. *)
Definition encode_row (s : string) (max_length : Z) : list Z :=
  let toks := 101 :: (map (fun a => 1000 + Z.of_nat (Ascii.nat_of_ascii a))
                        (String.list_ascii_of_string s)) ++ [102] in
  take (Z.to_nat max_length)
    (toks ++ replicate (Z.to_nat max_length - length toks)%nat 0).

Definition row (l : list Z) : ndarray Z := Arr (map Scalar l).

Definition tokenizer : Tokenizer := fun texts max_length =>
  let rows := map (fun s => encode_row s max_length) texts in
  Return (feed (Arr (map row rows))
            (Arr (map (fun r => row (map (fun t => if t =? 0 then 0 else 1) r)) rows))
            (Arr (map (fun r => row (map (fun _ => 0) r)) rows))).

(** A session with BERT's output signature: token embeddings of shape
    [batch, sequence, 768] and a pooled output of shape [batch, 768]. *)
Definition bert_session : InferenceSession :=
  mkSession (fun inputs =>
    match inputs !! "input_ids" with
    | Some ids =>
        match shape ids with
        | [b; s] =>
            Return [build (fun _ => 0%Qc) [b; s; 768%nat] [];
                    build (fun _ => 0%Qc) [b; 768%nat] []]
        | _ => Raise (ExternalError "InvalidArgument")
        end
    | None => Raise (ExternalError "InvalidArgument")
    end).

(** A session whose [run] always fails. *)
Definition failing_session : InferenceSession :=
  mkSession (fun _ => Raise (ExternalError "RuntimeException")).

Definition env : Env :=
  mkEnv "/models/bert-base-uncased/model.onnx" 512 "CUDAExecutionProvider"
    (fun name default =>
       Return (if String.eqb name "ONNX_INTRA_OP_THREADS" then 4 else 2))
    (fun _ => false)
    (fun n => Z2Qc (Z.of_nat n))
    (fun _ _ => 0%Qc)
    np_array
    (fun _ => Return tokenizer)
    (fun _ _ _ => Return bert_session).

Definition mock_engine : BertInferenceEngine :=
  mkEngine "/models/bert-base-uncased/model.onnx" "bert-base-uncased"
    (Some tokenizer) None "CUDAExecutionProvider".

Definition loaded_engine : BertInferenceEngine :=
  mkEngine "/models/bert-base-uncased/model.onnx" "bert-base-uncased"
    (Some tokenizer) (Some bert_session) "CUDAExecutionProvider".

Definition failing_engine : BertInferenceEngine :=
  mkEngine "/models/bert-base-uncased/model.onnx" "bert-base-uncased"
    (Some tokenizer) (Some failing_session) "CUDAExecutionProvider".

Definition empty_metrics : Metrics := mkMetrics ∅ ∅ ∅ ∅ ∅ ∅ ∅ ∅.
Definition w0 : World := mkWorld empty_metrics 0 0 [].

(** A pre-tokenized batch of one row of two tokens. *)
Definition batch : TokenizedBatch :=
  feed (Arr [row [101; 102]]) (Arr [row [1; 1]]) (Arr [row [0; 0]]).

Definition tensor (l : list (list Z)) : pyval :=
  PyList (map (fun r => PyList (map PyInt r)) l).

(** The request body [{"inputs": {"input_ids": [[101, 102]],
    "attention_mask": [[1, 1]], "token_type_ids": [[0, 0]]}}]. *)
Definition pretokenized : gmap string pyval :=
  <["input_ids" := tensor [[101; 102]]]>
    (<["attention_mask" := tensor [[1; 1]]]>
       (<["token_type_ids" := tensor [[0; 0]]]> ∅)).

(** The same body without ["token_type_ids"]. *)
Definition two_keys : gmap string pyval :=
  <["input_ids" := tensor [[101; 102]]]>
    (<["attention_mask" := tensor [[1; 1]]]> ∅).

(** A pre-tokenized batch whose attention mask sums to -1. *)
Definition negative_batch : TokenizedBatch :=
  feed (Arr [row [101; 102]]) (Arr [row [-1; 0]]) (Arr [row [0; 0]]).

(** A session that returns the token embeddings only, and one that
    returns nothing. *)
Definition hidden_only_session : InferenceSession :=
  mkSession (fun _ => Return [build (fun _ => 0%Qc) [1%nat; 2%nat; 768%nat] []]).
Definition silent_session : InferenceSession :=
  mkSession (fun _ => Return []).

Definition hidden_only_engine : BertInferenceEngine :=
  mkEngine "/models/bert-base-uncased/model.onnx" "bert-base-uncased"
    (Some tokenizer) (Some hidden_only_session) "CUDAExecutionProvider".
Definition silent_engine : BertInferenceEngine :=
  mkEngine "/models/bert-base-uncased/model.onnx" "bert-base-uncased"
    (Some tokenizer) (Some silent_session) "CUDAExecutionProvider".

(** The same environment without access to the tokenizer files. *)
Definition offline_env : Env :=
  mkEnv (MODEL_PATH env) (MAX_SEQUENCE_LENGTH env) (EXECUTION_PROVIDER env)
    (getenv_int env) (path_exists env) (clock env) (randn env) (np_array)
    (fun _ => Raise (ExternalError "OSError"))
    (ort_InferenceSession env).

End Demo.

(** * Properties *)

(** ** Reading metrics after an update *)

Lemma value_insert_eq `{Countable K} (m : gmap K Qc) (l : K) (v : Qc) :
  value (<[l := v]> m) l = v.
Proof. unfold value. by rewrite lookup_insert_eq. Qed.

Lemma value_insert_ne `{Countable K} (m : gmap K Qc) (l l' : K) (v : Qc) :
  l ≠ l' -> value (<[l := v]> m) l' = value m l'.
Proof. intros Hne. unfold value. by rewrite lookup_insert_ne. Qed.

Lemma Qc_inc_dec (x : Qc) : (x + 1 - 1)%Qc = x.
Proof. ring. Qed.

(** ** Frame conditions: what a computation leaves alone *)

Lemma preserves_ret {A X} (g : Metrics -> X) (a : A) : preserves g (ret a).
Proof. by intros w. Qed.

Lemma preserves_raise {A X} (g : Metrics -> X) (e : exn) :
  preserves g (raise (A:=A) e).
Proof. by intros w. Qed.

Lemma preserves_lift {A X} (g : Metrics -> X) (o : outcome A) :
  preserves g (lift o).
Proof. by intros w. Qed.

Lemma preserves_bind {A B X} (g : Metrics -> X) (c : M A) (k : A -> M B) :
  preserves g c -> (forall a, preserves g (k a)) -> preserves g (bind c k).
Proof.
  intros Hc Hk w. unfold bind. specialize (Hc w).
  destruct (c w) as [[a|e] w1]; simpl in *.
  - by rewrite Hk.
  - done.
Qed.

Lemma preserves_getitem {V X} (g : Metrics -> X) (d : gmap string V) k :
  preserves g (getitem d k).
Proof. intros w. unfold getitem. by destruct (d !! k). Qed.

Lemma preserves_list_getitem {V X} (g : Metrics -> X) (l : list V) i :
  preserves g (list_getitem l i).
Proof. intros w. unfold list_getitem. by destruct (l !! i). Qed.

Lemma preserves_time_time {X} (g : Metrics -> X) env : preserves g (time_time env).
Proof. by intros w. Qed.

Lemma preserves_time_sleep {X} (g : Metrics -> X) d : preserves g (time_sleep d).
Proof. by intros w. Qed.

Lemma preserves_np_random_randn {X} (g : Metrics -> X) env dims :
  preserves g (np_random_randn env dims).
Proof. intros w. unfold np_random_randn. by destruct (forallb _ _). Qed.

Lemma preserves_print {X} (g : Metrics -> X) p : preserves g (print p).
Proof. by intros w. Qed.

Lemma preserves_if {A X} (g : Metrics -> X) (b : bool) (c1 c2 : M A) :
  preserves g c1 -> preserves g c2 -> preserves g (if b then c1 else c2).
Proof. by destruct b. Qed.

Create HintDb frame discriminated.
#[local] Hint Resolve preserves_ret preserves_raise preserves_lift
  preserves_getitem preserves_list_getitem preserves_time_time
  preserves_time_sleep preserves_np_random_randn preserves_print : frame.

(** A counter or histogram update leaves every other metric family alone,
    and a counter leaves its other children alone. *)
Lemma Counter_inc_other_family `{Countable K} {X} (g : Metrics -> X)
  (upd : (gmap K Qc -> gmap K Qc) -> Metrics -> Metrics) l amount :
  (forall f m, g (upd f m) = g m) ->
  preserves g (Counter_inc upd l amount).
Proof.
  intros Hg w. unfold Counter_inc.
  destruct (Qclt_le_dec amount 0); simpl; apply Hg.
Qed.

Lemma Histogram_observe_other_family {X} (g : Metrics -> X) upd l v :
  (forall f m, g (upd f m) = g m) ->
  preserves g (Histogram_observe upd l v).
Proof. intros Hg w. simpl. apply Hg. Qed.

Lemma REQUEST_COUNT_inc_other_child (l l' : string * string) amount :
  l ≠ l' ->
  preserves (fun m => value (REQUEST_COUNT m) l')
    (Counter_inc set_REQUEST_COUNT l amount).
Proof.
  intros Hne w. unfold Counter_inc.
  destruct (Qclt_le_dec amount 0); simpl; by rewrite value_insert_ne.
Qed.

Ltac frame :=
  repeat first
    [ apply preserves_bind; [| intros ?]
    | apply preserves_if
    | apply Counter_inc_other_family; reflexivity
    | apply Histogram_observe_other_family; reflexivity
    | solve [auto with frame]
    | match goal with
      | |- preserves _ (match ?x with _ => _ end) => destruct x
      end ].

(** The [try] block of [infer] never touches the active-requests gauge. *)
Lemma infer_try_ACTIVE_REQUESTS env self inputs :
  preserves ACTIVE_REQUESTS (infer_try env self inputs).
Proof. unfold infer_try. frame. Qed.

Lemma infer_except_ACTIVE_REQUESTS self e :
  preserves ACTIVE_REQUESTS (infer_except self e).
Proof. unfold infer_except. frame. Qed.

(** The [try] block never touches the error child of the request counter. *)
Lemma infer_try_error_count env self inputs :
  preserves (fun m => value (REQUEST_COUNT m) ("error", model_name self))
    (infer_try env self inputs).
Proof.
  unfold infer_try. frame.
  all: try (apply REQUEST_COUNT_inc_other_child; congruence).
Qed.

(** ** C1: the active-requests gauge is restored on every exit path *)

(** What the [try]/[except]/[finally] statement does to a gauge that its
    [try] block and handler leave alone and that [finally] decrements. *)
Lemma try_except_finally_dec {A} (body : M A) handler name w :
  preserves ACTIVE_REQUESTS body ->
  (forall e, preserves ACTIVE_REQUESTS (handler e)) ->
  ACTIVE_REQUESTS
    (metrics (snd (try_except_finally body handler
                     (Gauge_dec set_ACTIVE_REQUESTS name) w)))
  = <[name := (value (ACTIVE_REQUESTS (metrics w)) name - 1)%Qc]>
      (ACTIVE_REQUESTS (metrics w)).
Proof.
  intros Hbody Hhandler. unfold try_except_finally.
  specialize (Hbody w).
  destruct (body w) as [[a|e] w1]; simpl in *.
  - by rewrite Hbody.
  - destruct (isinstance_Exception e); simpl.
    + specialize (Hhandler e w1).
      destruct (handler e w1) as [r w2]; simpl in *.
      by rewrite Hhandler, Hbody.
    + by rewrite Hbody.
Qed.

(** C1. For every call of [infer], whatever the engine (loaded session or
    mock mode), the batch and the state, and whether the call returns or
    raises: the [try] statement starts with the gauge of the model one
    above its value before the call, and when the call completes the gauge
    reads its value before the call again; the gauges of other models are
    not touched. *)
Theorem infer_restores_active_requests env self inputs w :
  (exists w1,
     infer env self inputs w
     = try_except_finally (infer_try env self inputs) (infer_except self)
         (infer_finally self) w1
     /\ value (ACTIVE_REQUESTS (metrics w1)) (model_name self)
        = (value (ACTIVE_REQUESTS (metrics w)) (model_name self) + 1)%Qc)
  /\ value (ACTIVE_REQUESTS (metrics (snd (infer env self inputs w))))
       (model_name self)
     = value (ACTIVE_REQUESTS (metrics w)) (model_name self)
  /\ forall l, l ≠ model_name self ->
       ACTIVE_REQUESTS (metrics (snd (infer env self inputs w))) !! l
       = ACTIVE_REQUESTS (metrics w) !! l.
Proof.
  unfold infer, bind, Gauge_inc, modify, infer_finally.
  set (w1 := with_metrics _ w).
  assert (Hinc : value (ACTIVE_REQUESTS (metrics w1)) (model_name self)
                 = (value (ACTIVE_REQUESTS (metrics w)) (model_name self) + 1)%Qc)
    by (subst w1; simpl; apply value_insert_eq).
  split; [by exists w1 |].
  rewrite (try_except_finally_dec _ _ (model_name self) w1
             (infer_try_ACTIVE_REQUESTS env self inputs)
             (infer_except_ACTIVE_REQUESTS self)).
  split.
  - rewrite value_insert_eq, Hinc. apply Qc_inc_dec.
  - intros l Hl. rewrite lookup_insert_ne by done.
    subst w1; simpl. by rewrite lookup_insert_ne.
Qed.

(** ** Running the pipeline step by step *)

Lemma bind_Return {A B} (c : M A) (k : A -> M B) w a w1 :
  c w = (Return a, w1) -> bind c k w = k a w1.
Proof. intros Hc. unfold bind. by rewrite Hc. Qed.

Lemma bind_Raise {A B} (c : M A) (k : A -> M B) w e w1 :
  c w = (Raise e, w1) -> bind c k w = (Raise e, w1).
Proof. intros Hc. unfold bind. by rewrite Hc. Qed.

Lemma getitem_Some {V} (d : gmap string V) k v w :
  d !! k = Some v -> getitem d k w = (Return v, w).
Proof. intros Hk. unfold getitem. by rewrite Hk. Qed.

Lemma getitem_None {V} (d : gmap string V) k w :
  d !! k = None -> getitem d k w = (Raise (KeyError k), w).
Proof. intros Hk. unfold getitem. by rewrite Hk. Qed.

Lemma Z2Qc_nonneg z : 0 <= z -> (0 <= Z2Qc z)%Qc.
Proof.
  intros Hz. unfold Qcle, Z2Qc.
  change (0 <= Qred (inject_Z z))%Q. rewrite Qred_correct.
  unfold Qle. simpl. lia.
Qed.

Lemma Counter_inc_nonneg `{Countable K}
  (upd : (gmap K Qc -> gmap K Qc) -> Metrics -> Metrics) l amount w :
  (0 <= amount)%Qc ->
  Counter_inc upd l amount w
  = (Return tt,
     with_metrics (upd (fun c => <[l := (value c l + amount)%Qc]> c)) w).
Proof.
  intros Ha. unfold Counter_inc.
  destruct (Qclt_le_dec amount 0) as [Hlt|_]; [|done].
  exfalso. by apply (Qclt_not_le _ _ Hlt).
Qed.

Lemma Counter_inc_one `{Countable K}
  (upd : (gmap K Qc -> gmap K Qc) -> Metrics -> Metrics) l w :
  Counter_inc upd l 1%Qc w
  = (Return tt, with_metrics (upd (fun c => <[l := (value c l + 1)%Qc]> c)) w).
Proof. apply Counter_inc_nonneg. by unfold Qcle. Qed.

Lemma np_random_randn_Return env dims w :
  Forall (Z.le 0) dims ->
  np_random_randn env dims w
  = (Return (build (randn env (draws w)) (map Z.to_nat dims) []),
     mkWorld (metrics w) (ticks w) (S (draws w)) (stdout w)).
Proof.
  intros Hd. unfold np_random_randn.
  replace (forallb (Z.leb 0) dims) with true; [done|].
  symmetry. apply forallb_forall. intros z Hz.
  apply Z.leb_le. rewrite Forall_forall in Hd. apply Hd.
  by apply list_elem_of_In.
Qed.

(** The tail of the [try] block, from the second clock reading on. *)
Lemma infer_record env self (start_time : Qc) (tokens batch_size : Z)
  (result : ndarray Qc * option (ndarray Qc)) w :
  0 <= tokens ->
  (t <- time_time env ;;
   let latency := (t - start_time)%Qc in
   Counter_inc set_REQUEST_COUNT ("success", model_name self) 1%Qc ;;
   Histogram_observe set_REQUEST_LATENCY (model_name self) latency ;;
   Counter_inc set_TOKENS_PROCESSED (model_name self) (Z2Qc tokens) ;;
   Histogram_observe set_BATCH_SIZE (model_name self) (Z2Qc batch_size) ;;
   ret (mkResult (fst result) (snd result) (latency * Z2Qc 1000)%Qc
          batch_size tokens))%py w
  = (Return (mkResult (fst result) (snd result)
               ((clock env (ticks w) - start_time) * Z2Qc 1000)%Qc
               batch_size tokens),
     mkWorld
       (record_success (model_name self) (clock env (ticks w) - start_time)%Qc
          tokens batch_size (metrics w))
       (S (ticks w)) (draws w) (stdout w)).
Proof.
  intros Htok.
  erewrite bind_Return by reflexivity. cbv zeta.
  erewrite bind_Return by apply Counter_inc_one.
  erewrite bind_Return by reflexivity.
  erewrite bind_Return by (apply Counter_inc_nonneg, Z2Qc_nonneg, Htok).
  erewrite bind_Return by reflexivity.
  reflexivity.
Qed.

Lemma infer_unfold env self inputs w :
  infer env self inputs w
  = try_except_finally (infer_try env self inputs) (infer_except self)
      (infer_finally self) (entered self w).
Proof. reflexivity. Qed.

Lemma try_except_finally_Return {A} (body : M A) handler self w a w1 :
  body w = (Return a, w1) ->
  try_except_finally body handler (infer_finally self) w
  = (Return a, snd (infer_finally self w1)).
Proof. intros Hb. unfold try_except_finally. by rewrite Hb. Qed.

Lemma try_except_finally_Raise self (body : M InferResult) w e w1 :
  body w = (Raise e, w1) ->
  isinstance_Exception e = true ->
  try_except_finally body (infer_except self) (infer_finally self) w
  = (Raise e,
     snd (infer_finally self
            (snd (Counter_inc set_REQUEST_COUNT ("error", model_name self)
                    1%Qc w1)))).
Proof.
  intros Hb He. unfold try_except_finally. rewrite Hb, He.
  unfold infer_except.
  erewrite bind_Return by apply Counter_inc_one.
  by rewrite Counter_inc_one.
Qed.

Lemma try_except_finally_BaseOnly self (body : M InferResult) w e w1 :
  body w = (Raise e, w1) ->
  isinstance_Exception e = false ->
  try_except_finally body (infer_except self) (infer_finally self) w
  = (Raise e, snd (infer_finally self w1)).
Proof. intros Hb He. unfold try_except_finally. by rewrite Hb, He. Qed.

(** The [try] block in mock mode. *)
Lemma infer_try_mock env self inputs rows mask w :
  session self = None ->
  inputs !! "input_ids" = Some (Arr rows) ->
  inputs !! "attention_mask" = Some mask ->
  0 <= MAX_SEQUENCE_LENGTH env ->
  0 <= np_sum mask ->
  infer_try env self inputs w
  = (Return
       (mkResult
          (build (randn env (draws w))
             [length rows; Z.to_nat (MAX_SEQUENCE_LENGTH env); 768%nat] [])
          (Some (build (randn env (S (draws w))) [length rows; 768%nat] []))
          ((clock env (S (ticks w)) - clock env (ticks w)) * Z2Qc 1000)%Qc
          (Z.of_nat (length rows)) (np_sum mask)),
     mkWorld
       (record_success (model_name self)
          (clock env (S (ticks w)) - clock env (ticks w))%Qc
          (np_sum mask) (Z.of_nat (length rows)) (metrics w))
       (S (S (ticks w))) (S (S (draws w))) (stdout w)).
Proof.
  intros Hsess Hids Hmask Hmax Htok. unfold infer_try.
  erewrite bind_Return by reflexivity.
  erewrite bind_Return by (apply getitem_Some, Hids).
  erewrite bind_Return by reflexivity.
  erewrite bind_Return by (apply getitem_Some, Hmask).
  cbv zeta. rewrite Hsess.
  erewrite bind_Return; cycle 1.
  { erewrite bind_Return by reflexivity.
    erewrite bind_Return
      by (apply np_random_randn_Return; repeat constructor; lia || done).
    erewrite bind_Return
      by (apply np_random_randn_Return; repeat constructor; lia).
    reflexivity. }
  rewrite infer_record by done.
  cbn [map fst snd ticks draws metrics stdout]. rewrite Nat2Z.id.
  change (Z.to_nat 768) with 768%nat. reflexivity.
Qed.

(** The pooled output is the second output tensor when there is one. *)
Lemma second_output (o : ndarray Qc) (os : list (ndarray Qc)) w :
  (p <- (if Z.of_nat (length (o :: os)) >? 1
         then (o1 <- list_getitem (o :: os) 1 ;; ret (Some o1))
         else ret None) ;;
   ret (o, p))%py w
  = (Return (o, head os), w).
Proof.
  destruct os as [|o1 os]; [reflexivity |].
  replace (Z.of_nat (length (o :: o1 :: os)) >? 1) with true; [reflexivity |].
  symmetry. apply Z.gtb_lt. cbn [length]. lia.
Qed.

(** The [try] block with a loaded session whose [run] returns. *)
Lemma infer_try_loaded env self sess inputs rows mask c o os w :
  session self = Some sess ->
  inputs !! "input_ids" = Some (Arr rows) ->
  inputs !! "attention_mask" = Some mask ->
  inputs !! "token_type_ids" = Some c ->
  run sess (feed (Arr rows) mask c) = Return (o :: os) ->
  0 <= np_sum mask ->
  infer_try env self inputs w
  = (Return
       (mkResult o (head os)
          ((clock env (S (ticks w)) - clock env (ticks w)) * Z2Qc 1000)%Qc
          (Z.of_nat (length rows)) (np_sum mask)),
     mkWorld
       (record_success (model_name self)
          (clock env (S (ticks w)) - clock env (ticks w))%Qc
          (np_sum mask) (Z.of_nat (length rows)) (metrics w))
       (S (S (ticks w))) (draws w) (stdout w)).
Proof.
  intros Hsess Hids Hmask Htt Hrun Htok. unfold infer_try.
  erewrite bind_Return by reflexivity.
  erewrite bind_Return by (apply getitem_Some, Hids).
  erewrite bind_Return by reflexivity.
  erewrite bind_Return by (apply getitem_Some, Hmask).
  cbv zeta. rewrite Hsess.
  erewrite bind_Return; cycle 1.
  { erewrite bind_Return by (apply getitem_Some, Hids).
    erewrite bind_Return by (apply getitem_Some, Hmask).
    erewrite bind_Return by (apply getitem_Some, Htt).
    erewrite bind_Return by (unfold lift; rewrite Hrun; reflexivity).
    erewrite bind_Return by reflexivity.
    apply second_output. }
  rewrite infer_record by done. reflexivity.
Qed.

(** ** C2: batch size and token count *)

Lemma sum_list_01 (l : list Z) :
  Forall (fun z => z = 0 \/ z = 1) l ->
  0 <= sum_list l <= Z.of_nat (length l).
Proof.
  induction 1 as [|z l Hz _ IH]; cbn [sum_list foldr length].
  - lia.
  - fold (sum_list l). destruct Hz; subst; lia.
Qed.

Lemma wrap64_small z : - 2 ^ 63 <= z < 2 ^ 63 -> wrap64 z = z.
Proof. intros Hz. unfold wrap64. rewrite Z.mod_small; lia. Qed.

Lemma np_sum_attention_mask mask :
  attention_mask_ok mask ->
  np_sum mask = sum_list (entries mask) /\ 0 <= np_sum mask.
Proof.
  intros [H01 Hlen]. pose proof (sum_list_01 _ H01) as Hsum.
  unfold np_sum. rewrite wrap64_small by lia. lia.
Qed.

Lemma predict_response env self request w0 inputs w r w' :
  predict_inputs env self request w0 = (Return inputs, w) ->
  infer env self inputs w = (Return r, w') ->
  is_list (res_last_hidden_state r) ->
  (forall p, res_pooler_output r = Some p -> is_list p) ->
  predict env (Some self) request w0
  = (Return (mkResponse
               (if include_embeddings request
                then Some (res_last_hidden_state r) else None)
               (res_pooler_output r) (res_latency_ms r) (res_batch_size r)
               (res_tokens_processed r)),
     w').
Proof.
  intros Hin Hinfer Hh Hp. unfold predict.
  erewrite bind_Return by exact Hin.
  erewrite bind_Return by exact Hinfer.
  destruct r as [h p lat b t]; cbn [res_last_hidden_state res_pooler_output
    res_latency_ms res_batch_size res_tokens_processed] in *.
  assert (Hv1 : forall f w,
             validate_Optional_list f
               (if include_embeddings request then Some h else None) w
             = (Return (if include_embeddings request then Some h else None), w)).
  { intros f w1. destruct (include_embeddings request); [|done].
    by destruct h. }
  assert (Hv2 : forall f w, validate_Optional_list f p w = (Return p, w)).
  { intros f w1. destruct p as [p|]; [|done].
    specialize (Hp p eq_refl). by destruct p. }
  erewrite bind_Return by apply Hv1.
  erewrite bind_Return by apply Hv2.
  reflexivity.
Qed.

(** C2. For a tokenized batch whose attention mask is well formed and
    whose execution goes through (mock mode, or a session that returns its
    outputs), [infer] returns, [tokens_processed] is the sum of all
    attention-mask entries, [batch_size] is the number of rows of
    [input_ids], and a [predict] request normalised to this batch answers
    with a response payload carrying the same two values. *)
Theorem infer_batch_size_and_tokens env self inputs rows mask w :
  inputs !! "input_ids" = Some (Arr rows) ->
  inputs !! "attention_mask" = Some mask ->
  attention_mask_ok mask ->
  execution_succeeds env self inputs ->
  exists r w',
    infer env self inputs w = (Return r, w')
    /\ res_batch_size r = Z.of_nat (length rows)
    /\ res_tokens_processed r = sum_list (entries mask)
    /\ forall request w0,
         predict_inputs env self request w0 = (Return inputs, w) ->
         exists resp,
           predict env (Some self) request w0 = (Return resp, w')
           /\ batch_size resp = Z.of_nat (length rows)
           /\ tokens_processed resp = sum_list (entries mask).
Proof.
  intros Hids Hmask Hok Hexec.
  destruct (np_sum_attention_mask _ Hok) as [Hsum Hpos].
  unfold execution_succeeds in Hexec.
  destruct (session self) as [sess|] eqn:Hsess.
  - destruct Hexec as (a & b & c & o & os & Ha & Hb & Hc & Hrun & Ho & Hos).
    rewrite Hids in Ha. rewrite Hmask in Hb.
    injection Ha as <-. injection Hb as <-.
    pose proof (infer_try_loaded env self sess inputs rows mask c o os
                  (entered self w) Hsess Hids Hmask Hc Hrun Hpos) as Htry.
    eexists. eexists.
    split; [rewrite infer_unfold;
            apply (try_except_finally_Return _ _ _ _ _ _ Htry) |].
    split; [reflexivity |]. split; [exact Hsum |].
    intros request w0 Hin. eexists. split.
    + eapply predict_response; [exact Hin | | |].
      * rewrite infer_unfold. apply (try_except_finally_Return _ _ _ _ _ _ Htry).
      * exact Ho.
      * cbn [res_pooler_output]. intros p Hp.
        destruct os as [|o1 os]; [discriminate |].
        injection Hp as <-. cbn [take] in Hos. by inversion Hos.
    + split; [reflexivity | exact Hsum].
  - pose proof (infer_try_mock env self inputs rows mask (entered self w)
                  Hsess Hids Hmask Hexec Hpos) as Htry.
    eexists. eexists.
    split; [rewrite infer_unfold;
            apply (try_except_finally_Return _ _ _ _ _ _ Htry) |].
    split; [reflexivity |]. split; [exact Hsum |].
    intros request w0 Hin. eexists. split.
    + eapply predict_response; [exact Hin | | |].
      * rewrite infer_unfold. apply (try_except_finally_Return _ _ _ _ _ _ Htry).
      * exact I.
      * cbn [res_pooler_output]. intros p Hp. injection Hp as <-. exact I.
    + split; [reflexivity | exact Hsum].
Qed.

(** ** C3: failures are counted and re-raised *)

Lemma entered_REQUEST_COUNT self w :
  REQUEST_COUNT (metrics (entered self w)) = REQUEST_COUNT (metrics w).
Proof. reflexivity. Qed.

Lemma entered_ACTIVE_REQUESTS self w :
  value (ACTIVE_REQUESTS (metrics (entered self w))) (model_name self)
  = (value (ACTIVE_REQUESTS (metrics w)) (model_name self) + 1)%Qc.
Proof. unfold entered. simpl. apply value_insert_eq. Qed.

(** C3. Whenever the [try] block of a call of [infer] raises an exception
    [e] (an instance of [Exception], which is what the handler catches),
    the call raises that same [e], the error child of the request counter
    for the model has gone up by one, and the active-requests gauge is back
    at its value before the call. *)
Theorem infer_counts_error_and_reraises env self inputs w e w2 :
  infer_try env self inputs (entered self w) = (Raise e, w2) ->
  isinstance_Exception e = true ->
  exists w',
    infer env self inputs w = (Raise e, w')
    /\ value (REQUEST_COUNT (metrics w')) ("error", model_name self)
       = (value (REQUEST_COUNT (metrics w)) ("error", model_name self) + 1)%Qc
    /\ value (ACTIVE_REQUESTS (metrics w')) (model_name self)
       = value (ACTIVE_REQUESTS (metrics w)) (model_name self).
Proof.
  intros Htry He.
  pose proof (infer_try_error_count env self inputs (entered self w)) as Hcnt.
  pose proof (infer_try_ACTIVE_REQUESTS env self inputs (entered self w)) as Hact.
  rewrite Htry in Hcnt, Hact. cbn [snd] in Hcnt, Hact.
  eexists. split.
  { rewrite infer_unfold. apply (try_except_finally_Raise _ _ _ _ _ Htry He). }
  rewrite Counter_inc_one. unfold infer_finally, Gauge_dec, modify.
  cbn [snd with_metrics metrics set_ACTIVE_REQUESTS set_REQUEST_COUNT
       REQUEST_COUNT ACTIVE_REQUESTS].
  split.
  - rewrite value_insert_eq, Hcnt. by rewrite entered_REQUEST_COUNT.
  - rewrite value_insert_eq, Hact, entered_ACTIVE_REQUESTS. apply Qc_inc_dec.
Qed.

(** What [except Exception] leaves out: a condition that is not an
    instance of [Exception] passes through uncounted, the gauge still
    being released. *)
Lemma infer_BaseException_uncounted env self inputs w e w2 :
  infer_try env self inputs (entered self w) = (Raise e, w2) ->
  isinstance_Exception e = false ->
  exists w',
    infer env self inputs w = (Raise e, w')
    /\ value (REQUEST_COUNT (metrics w')) ("error", model_name self)
       = value (REQUEST_COUNT (metrics w)) ("error", model_name self).
Proof.
  intros Htry He.
  pose proof (infer_try_error_count env self inputs (entered self w)) as Hcnt.
  rewrite Htry in Hcnt. cbn [snd] in Hcnt.
  eexists. split.
  { rewrite infer_unfold. apply (try_except_finally_BaseOnly _ _ _ _ _ Htry He). }
  unfold infer_finally, Gauge_dec, modify.
  cbn [snd with_metrics metrics set_ACTIVE_REQUESTS REQUEST_COUNT].
  by rewrite Hcnt, entered_REQUEST_COUNT.
Qed.

(** ** C6: what is recorded when execution fails *)

Lemma infer_try_unfold env self inputs :
  infer_try env self inputs
  = (start_time <- time_time env ;;
     ids <- getitem inputs "input_ids" ;;
     batch_size <- lift (len ids) ;;
     mask <- getitem inputs "attention_mask" ;;
     result <- infer_execute env self inputs batch_size ;;
     infer_record_metrics env self start_time (np_sum mask) batch_size result)%py.
Proof. reflexivity. Qed.

Lemma infer_try_counted env self inputs rows mask w :
  inputs !! "input_ids" = Some (Arr rows) ->
  inputs !! "attention_mask" = Some mask ->
  infer_try env self inputs w
  = (result <- infer_execute env self inputs (Z.of_nat (length rows)) ;;
     infer_record_metrics env self (clock env (ticks w)) (np_sum mask)
       (Z.of_nat (length rows)) result)%py (ticked w).
Proof.
  intros Hids Hmask. rewrite infer_try_unfold.
  erewrite bind_Return by reflexivity.
  erewrite bind_Return by (apply getitem_Some, Hids).
  erewrite bind_Return by reflexivity.
  erewrite bind_Return by (apply getitem_Some, Hmask).
  reflexivity.
Qed.

Lemma infer_try_uncountable env self inputs e0 w :
  counts inputs = Raise e0 ->
  infer_try env self inputs w = (Raise e0, ticked w).
Proof.
  unfold counts. intros Hc. rewrite infer_try_unfold.
  erewrite bind_Return by reflexivity. fold (ticked w).
  destruct (inputs !! "input_ids") as [ids|] eqn:Hids.
  2: { injection Hc as <-. apply bind_Raise. by apply getitem_None. }
  erewrite bind_Return by (apply getitem_Some, Hids).
  destruct ids as [z|rows]; cbn [len] in *.
  { injection Hc as <-. by apply bind_Raise. }
  erewrite bind_Return by reflexivity.
  destruct (inputs !! "attention_mask") as [mask|] eqn:Hmask; [discriminate |].
  injection Hc as <-. apply bind_Raise. by apply getitem_None.
Qed.

(** The [try] block when the session's [run] raises on the batch at hand:
    it stops there, and no metric has been written by then. *)
Lemma infer_try_run_raises env self sess inputs rows mask c e w :
  session self = Some sess ->
  inputs !! "input_ids" = Some (Arr rows) ->
  inputs !! "attention_mask" = Some mask ->
  inputs !! "token_type_ids" = Some c ->
  run sess (feed (Arr rows) mask c) = Raise e ->
  infer_try env self inputs w = (Raise e, ticked w).
Proof.
  intros Hsess Hids Hmask Htt Hrun.
  rewrite (infer_try_counted env self inputs rows mask _ Hids Hmask).
  apply bind_Raise. unfold infer_execute. rewrite Hsess.
  erewrite bind_Return by (apply getitem_Some, Hids).
  erewrite bind_Return by (apply getitem_Some, Hmask).
  erewrite bind_Return by (apply getitem_Some, Htt).
  apply bind_Raise. unfold lift. by rewrite Hrun.
Qed.

Lemma counts_Exception inputs e0 :
  counts inputs = Raise e0 -> isinstance_Exception e0 = true.
Proof.
  unfold counts. intros Hc.
  destruct (inputs !! "input_ids") as [[z|rows]|]; cbn [len] in Hc.
  - by injection Hc as <-.
  - destruct (inputs !! "attention_mask"); [discriminate |].
    by injection Hc as <-.
  - by injection Hc as <-.
Qed.

Lemma records_error_only_after_raise self w :
  records_error_only self w
    (snd (infer_finally self
            (snd (Counter_inc set_REQUEST_COUNT ("error", model_name self)
                    1%Qc (ticked (entered self w)))))).
Proof.
  rewrite Counter_inc_one. unfold records_error_only, infer_finally,
    Gauge_dec, modify.
  cbn [snd with_metrics metrics set_ACTIVE_REQUESTS set_REQUEST_COUNT
       REQUEST_COUNT TOKENS_PROCESSED BATCH_SIZE REQUEST_LATENCY].
  repeat split; try reflexivity.
  - by rewrite value_insert_ne.
  - by rewrite value_insert_eq.
Qed.

(** C6, as the code has it. The counts are evaluated before the session is
    run: a batch whose counts cannot be computed makes [infer] raise their
    error whatever the engine. And for a call whose counts are computed
    and whose session's [run] raises [e] on the batch at hand, [infer]
    raises [e]. In both cases the failure is counted once as an error and
    nothing else is recorded: the tokens counter, the batch-size histogram,
    the latency histogram and the success count are as before the call. *)
Theorem infer_failure_records_error_only env self inputs w :
  (forall e0,
     counts inputs = Raise e0 ->
     exists w',
       infer env self inputs w = (Raise e0, w')
       /\ records_error_only self w w')
  /\ (forall sess rows mask c e,
        session self = Some sess ->
        inputs !! "input_ids" = Some (Arr rows) ->
        inputs !! "attention_mask" = Some mask ->
        inputs !! "token_type_ids" = Some c ->
        run sess (feed (Arr rows) mask c) = Raise e ->
        isinstance_Exception e = true ->
        exists w',
          infer env self inputs w = (Raise e, w')
          /\ counts inputs = Return (Z.of_nat (length rows), np_sum mask)
          /\ records_error_only self w w').
Proof.
  split.
  - intros e0 Hc.
    pose proof (infer_try_uncountable env self inputs e0 (entered self w) Hc)
      as Htry.
    eexists. split.
    + rewrite infer_unfold.
      apply (try_except_finally_Raise _ _ _ _ _ Htry (counts_Exception _ _ Hc)).
    + apply records_error_only_after_raise.
  - intros sess rows mask c e Hsess Hids Hmask Htt Hrun He.
    pose proof (infer_try_run_raises env self sess inputs rows mask c e
                  (entered self w) Hsess Hids Hmask Htt Hrun) as Htry.
    eexists. split; [| split].
    + rewrite infer_unfold. apply (try_except_finally_Raise _ _ _ _ _ Htry He).
    + unfold counts. by rewrite Hids, Hmask.
    + apply records_error_only_after_raise.
Qed.

(** ** C4: output shapes in mock mode and with a loaded session *)

Lemma build_cons {A} (cell : list nat -> A) d ds idx :
  build cell (d :: ds) idx
  = Arr (map (fun i => build cell ds (i :: idx)) (seq 0 d)).
Proof. reflexivity. Qed.

Lemma shape_build {A} (cell : list nat -> A) dims :
  forall idx, shape (build cell dims idx) = list_shape dims.
Proof.
  induction dims as [|d ds IH]; intros idx; [reflexivity |].
  rewrite build_cons. cbn [shape list_shape].
  rewrite length_map, length_seq. f_equal.
  destruct d as [|d]; [reflexivity |].
  cbn [seq map]. apply IH.
Qed.

Lemma list_shape_embeddings_eq (b s m : nat) :
  b ≠ 0%nat ->
  list_shape [b; s; 768%nat] = list_shape [b; m; 768%nat] <-> s = m.
Proof.
  intros Hb. destruct b as [|b]; [done |].
  split; [| by intros ->].
  cbn [list_shape]. destruct s, m; intros Heq; congruence.
Qed.

(** C4, as the code has it. On the same batch of [batch_size > 0] rows of
    [sequence_length] tokens, mock mode and a session with BERT's output
    signature both return; the pooled outputs have the same shape
    [batch_size, 768]; the token embeddings of mock mode have the shape
    [batch_size, MAX_SEQUENCE_LENGTH, 768], which is the shape
    [batch_size, sequence_length, 768] of the loaded mode exactly when the
    sequence length of the batch is the configured maximum. *)
Theorem mock_and_loaded_shapes env mock loaded sess inputs rows mask c o0 o1
  (sequence_length : nat) w w' :
  session mock = None ->
  session loaded = Some sess ->
  inputs !! "input_ids" = Some (Arr rows) ->
  inputs !! "attention_mask" = Some mask ->
  inputs !! "token_type_ids" = Some c ->
  shape (Arr rows) = [length rows; sequence_length] ->
  rows ≠ [] ->
  attention_mask_ok mask ->
  0 <= MAX_SEQUENCE_LENGTH env ->
  run sess (feed (Arr rows) mask c) = Return [o0; o1] ->
  shape o0 = list_shape [length rows; sequence_length; 768%nat] ->
  shape o1 = list_shape [length rows; 768%nat] ->
  exists rm rl wm wl,
    infer env mock inputs w = (Return rm, wm)
    /\ infer env loaded inputs w' = (Return rl, wl)
    /\ option_map shape (res_pooler_output rm) = Some [length rows; 768%nat]
    /\ option_map shape (res_pooler_output rl) = Some [length rows; 768%nat]
    /\ shape (res_last_hidden_state rm)
       = list_shape [length rows; Z.to_nat (MAX_SEQUENCE_LENGTH env); 768%nat]
    /\ shape (res_last_hidden_state rl)
       = list_shape [length rows; sequence_length; 768%nat]
    /\ (shape (res_last_hidden_state rm) = shape (res_last_hidden_state rl)
        <-> sequence_length = Z.to_nat (MAX_SEQUENCE_LENGTH env)).
Proof.
  intros Hm Hl Hids Hmask Htt _ Hrows Hok Hmax Hrun Ho0 Ho1.
  destruct (np_sum_attention_mask _ Hok) as [_ Hpos].
  pose proof (infer_try_mock env mock inputs rows mask (entered mock w)
                Hm Hids Hmask Hmax Hpos) as Htm.
  pose proof (infer_try_loaded env loaded sess inputs rows mask c o0 [o1]
                (entered loaded w') Hl Hids Hmask Htt Hrun Hpos) as Htl.
  assert (Hb : length rows ≠ 0%nat) by (by destruct rows).
  eexists. eexists. eexists. eexists.
  split; [rewrite infer_unfold;
          apply (try_except_finally_Return _ _ _ _ _ _ Htm) |].
  split; [rewrite infer_unfold;
          apply (try_except_finally_Return _ _ _ _ _ _ Htl) |].
  cbn [res_pooler_output res_last_hidden_state option_map head].
  rewrite !shape_build, Ho0, Ho1.
  assert (Hp : list_shape [length rows; 768%nat] = [length rows; 768%nat]).
  { cbn [list_shape]. by destruct (length rows). }
  rewrite Hp. repeat split; try reflexivity.
  - intros Heq. symmetry. by apply (list_shape_embeddings_eq (length rows)).
  - intros ->. reflexivity.
Qed.

(** ** C5, C9, C10: which input shape [predict] takes *)

Lemma truthy_dict_Some (d : gmap string pyval) :
  truthy_dict (Some d) = if decide (d = ∅) then false else true.
Proof. unfold truthy_dict. by case_bool_decide; case_decide. Qed.

Lemma truthy_list_Some {A} (l : list A) :
  l ≠ [] -> truthy_list (Some l) = true.
Proof. by destruct l. Qed.

(** C5. A request whose [inputs] object is there (not empty) is handled
    exactly as the request carrying only those [inputs], and the batch is
    built from them: the three tensors of [inputs], each converted by
    NumPy; [texts] and [text] are ignored. A request without [inputs]
    whose [texts] list is there (not empty) is handled as the request
    carrying only those [texts], which are what is tokenized: [text] is
    ignored. Only a request with neither of them has its [text]
    tokenized. *)
Theorem predict_precedence env engine s t i inc w :
  (forall d, i = Some d -> d ≠ ∅ ->
     predict env engine (mkRequest s t i inc) w
     = predict env engine (mkRequest None None i inc) w
     /\ (forall e,
           predict_inputs env e (mkRequest s t i inc)
           = (v <- getitem d "input_ids" ;;
              a <- lift (np_array env v) ;;
              v <- getitem d "attention_mask" ;;
              b <- lift (np_array env v) ;;
              v <- getitem d "token_type_ids" ;;
              c <- lift (np_array env v) ;;
              ret (feed a b c))%py)
     /\ (forall e v1 v2 v3 a b c,
           d !! "input_ids" = Some v1 -> np_array env v1 = Return a ->
           d !! "attention_mask" = Some v2 -> np_array env v2 = Return b ->
           d !! "token_type_ids" = Some v3 -> np_array env v3 = Return c ->
           predict_inputs env e (mkRequest s t i inc) w
           = (Return (feed a b c), w)))
  /\ (forall l, i = None \/ i = Some ∅ -> t = Some l -> l ≠ [] ->
        predict env engine (mkRequest s t i inc) w
        = predict env engine (mkRequest None t None inc) w
        /\ forall e, predict_inputs env e (mkRequest s t i inc)
                     = tokenize e l (MAX_SEQUENCE_LENGTH env))
  /\ (forall x, i = None \/ i = Some ∅ -> t = None \/ t = Some [] ->
        s = Some x -> x ≠ "" ->
        forall e, predict_inputs env e (mkRequest s t i inc)
                  = tokenize e [x] (MAX_SEQUENCE_LENGTH env)).
Proof.
  split; [| split].
  - intros d -> Hd.
    assert (Hpre : forall e,
               predict_inputs env e (mkRequest s t (Some d) inc)
               = (v <- getitem d "input_ids" ;;
                  a <- lift (np_array env v) ;;
                  v <- getitem d "attention_mask" ;;
                  b <- lift (np_array env v) ;;
                  v <- getitem d "token_type_ids" ;;
                  c <- lift (np_array env v) ;;
                  ret (feed a b c))%py).
    { intros e. unfold predict_inputs. cbn [inputs texts text].
      rewrite truthy_dict_Some. by case_decide. }
    split; [| split].
    + destruct engine as [e|]; [| reflexivity].
      unfold predict, predict_inputs. cbn [inputs texts text].
      rewrite truthy_dict_Some. by case_decide.
    + exact Hpre.
    + intros e v1 v2 v3 a b c H1 Ha H2 Hb H3 Hc. rewrite Hpre.
      erewrite bind_Return by (apply getitem_Some, H1).
      erewrite bind_Return by (unfold lift; rewrite Ha; reflexivity).
      erewrite bind_Return by (apply getitem_Some, H2).
      erewrite bind_Return by (unfold lift; rewrite Hb; reflexivity).
      erewrite bind_Return by (apply getitem_Some, H3).
      erewrite bind_Return by (unfold lift; rewrite Hc; reflexivity).
      reflexivity.
  - intros l Hi -> Hl.
    assert (Hf : truthy_dict i = false).
    { destruct Hi as [-> | ->]; [reflexivity |].
      rewrite truthy_dict_Some. by case_decide. }
    split.
    + destruct engine as [e|]; [|reflexivity].
      unfold predict, predict_inputs. cbn [inputs texts text].
      by rewrite Hf, (truthy_list_Some l Hl).
    + intros e. unfold predict_inputs. cbn [inputs texts text].
      by rewrite Hf, (truthy_list_Some l Hl).
  - intros x Hi Ht -> Hx e.
    assert (Hf : truthy_dict i = false).
    { destruct Hi as [-> | ->]; [reflexivity |].
      rewrite truthy_dict_Some. by case_decide. }
    assert (Hl : truthy_list t = false) by (by destruct Ht as [-> | ->]).
    unfold predict_inputs. cbn [inputs texts text].
    rewrite Hf, Hl. by destruct x.
Qed.

(** C9. With an engine in place, a request whose [texts] is the empty list
    and that carries neither [text] nor [inputs] is refused with the HTTP
    400 exception; no batch reaches the executor and the state is as it
    was. *)
Theorem predict_rejects_empty_texts env engine inc w :
  predict env (Some engine) (mkRequest None (Some []) None inc) w
  = (Raise (HTTPException 400 "No input provided"), w)
  /\ http_status
       (fst (predict env (Some engine) (mkRequest None (Some []) None inc) w))
     = 400.
Proof. split; reflexivity. Qed.

(** C10. [predict] handles a request exactly as the request from which
    every empty-but-present shape (an empty [inputs] object, an empty
    [texts] list, an empty [text] string) has been removed; and when each of
    the three shapes is absent or empty, the request is refused with the
    no-input HTTP 400 exception, the state being as it was. *)
Theorem predict_tests_truthiness env engine request w :
  predict env engine request w = predict env engine (drop_empty request) w
  /\ ((inputs request = None \/ inputs request = Some ∅) ->
      (texts request = None \/ texts request = Some []) ->
      (text request = None \/ text request = Some "") ->
      forall e,
        predict env (Some e) request w
        = (Raise (HTTPException 400 "No input provided"), w)).
Proof.
  destruct request as [s t i inc]. split.
  - destruct engine as [e|]; [|reflexivity].
    unfold predict, predict_inputs, drop_empty. cbn [inputs texts text].
    destruct i as [d|].
    + rewrite truthy_dict_Some. case_decide as Hd.
      * subst d. cbn [truthy_dict].
        destruct t as [[|x l]|]; destruct s as [[|a s]|]; reflexivity.
      * rewrite truthy_dict_Some. case_decide; [done |]. reflexivity.
    + cbn [truthy_dict].
      destruct t as [[|x l]|]; destruct s as [[|a s]|]; reflexivity.
  - cbn [inputs texts text]. intros Hi Ht Hs e.
    unfold predict, predict_inputs. cbn [inputs texts text].
    assert (Hf : truthy_dict i = false).
    { destruct Hi as [-> | ->]; [reflexivity |].
      rewrite truthy_dict_Some. by case_decide. }
    rewrite Hf.
    destruct Ht as [-> | ->]; destruct Hs as [-> | ->]; reflexivity.
Qed.

(** ** C7: a pre-tokenized object that lacks a tensor *)

(** C7, as the code has it. A request whose [inputs] object is not empty
    but lacks one of the three tensor keys fails inside [predict], before
    the executor is called: the state, hence every metric, is as it was.
    No validation turns this into the HTTP 400 exception: when the tensors
    that are there convert, the exception is the [KeyError] of the first
    missing key, which the framework answers with status 500. *)
Theorem predict_missing_tensor_key env engine request d k w :
  inputs request = Some d ->
  d ≠ ∅ ->
  first_missing d = Some k ->
  exists e,
    predict env (Some engine) request w = (Raise e, w)
    /\ ((forall k' v, d !! k' = Some v -> exists a, np_array env v = Return a) ->
        e = KeyError k
        /\ http_status (fst (predict env (Some engine) request w)) = 500).
Proof.
  intros Hi Hd Hk.
  assert (Hconv : forall v e,
             np_array env v = Raise e ->
             forall k', d !! k' = Some v ->
             (forall k' v, d !! k' = Some v -> exists a, np_array env v = Return a) ->
             False).
  { intros v e Hv k' Hk' Hall. destruct (Hall k' v Hk') as [a Ha]. congruence. }
  assert (Hraise : forall e,
             predict_inputs env engine request w = (Raise e, w) ->
             predict env (Some engine) request w = (Raise e, w)).
  { intros e He. unfold predict. by apply bind_Raise. }
  assert (Hpre : predict_inputs env engine request
                 = (v <- getitem d "input_ids" ;;
                    a <- lift (np_array env v) ;;
                    v <- getitem d "attention_mask" ;;
                    b <- lift (np_array env v) ;;
                    v <- getitem d "token_type_ids" ;;
                    c <- lift (np_array env v) ;;
                    ret (feed a b c))%py).
  { unfold predict_inputs. rewrite Hi, truthy_dict_Some.
    by case_decide. }
  unfold first_missing in Hk.
  destruct (d !! "input_ids") as [v1|] eqn:H1.
  2: { injection Hk as <-.
       assert (Hp : predict_inputs env engine request w
                    = (Raise (KeyError "input_ids"), w)).
       { rewrite Hpre. apply bind_Raise. by apply getitem_None. }
       eexists. split; [by apply Hraise |].
       intros _. split; [reflexivity |]. by rewrite (Hraise _ Hp). }
  destruct (np_array env v1) as [a1|e1] eqn:Hn1.
  2: { exists e1. split; [| intros Hall; exfalso; eauto].
       apply Hraise. rewrite Hpre.
       erewrite bind_Return by (by apply getitem_Some).
       apply bind_Raise. unfold lift. by rewrite Hn1. }
  destruct (d !! "attention_mask") as [v2|] eqn:H2.
  2: { injection Hk as <-.
       assert (Hp : predict_inputs env engine request w
                    = (Raise (KeyError "attention_mask"), w)).
       { rewrite Hpre.
         erewrite bind_Return by (by apply getitem_Some).
         erewrite bind_Return by (unfold lift; by rewrite Hn1).
         apply bind_Raise. by apply getitem_None. }
       eexists. split; [by apply Hraise |].
       intros _. split; [reflexivity |]. by rewrite (Hraise _ Hp). }
  destruct (np_array env v2) as [a2|e2] eqn:Hn2.
  2: { exists e2. split; [| intros Hall; exfalso; eauto].
       apply Hraise. rewrite Hpre.
       erewrite bind_Return by (by apply getitem_Some).
       erewrite bind_Return by (unfold lift; by rewrite Hn1).
       erewrite bind_Return by (by apply getitem_Some).
       apply bind_Raise. unfold lift. by rewrite Hn2. }
  destruct (d !! "token_type_ids") as [v3|] eqn:H3; [discriminate |].
  injection Hk as <-.
  assert (Hp : predict_inputs env engine request w
               = (Raise (KeyError "token_type_ids"), w)).
  { rewrite Hpre.
    erewrite bind_Return by (by apply getitem_Some).
    erewrite bind_Return by (unfold lift; by rewrite Hn1).
    erewrite bind_Return by (by apply getitem_Some).
    erewrite bind_Return by (unfold lift; by rewrite Hn2).
    apply bind_Raise. by apply getitem_None. }
  eexists. split; [by apply Hraise |].
  intros _. split; [reflexivity |]. by rewrite (Hraise _ Hp).
Qed.

(** ** C8: loading without a model file *)

(** C8. Once the tokenizer is resolved and the two thread counts are read,
    [load] does not fail for want of the model file: when the file is
    absent it returns the engine with no session (mock mode), having
    printed the warning; and in this case as well as when the file exists
    and the session is built, the load-time gauge of the model holds the
    time between the two clock readings. *)
Theorem load_without_model_file env self tok intra inter w :
  from_pretrained env "google-bert/bert-base-uncased" = Return tok ->
  getenv_int env "ONNX_INTRA_OP_THREADS" "4" = Return intra ->
  getenv_int env "ONNX_INTER_OP_THREADS" "2" = Return inter ->
  (path_exists env (model_path self) = false ->
   exists self' w',
     load env self w = (Return self', w')
     /\ session self' = None
     /\ tokenizer self' = Some tok
     /\ model_name self' = model_name self
     /\ MODEL_LOAD_TIME (metrics w') !! model_name self
        = Some (clock env (S (ticks w)) - clock env (ticks w))%Qc
     /\ WarningModelNotFound (model_path self) ∈ stdout w')
  /\ (forall s,
        path_exists env (model_path self) = true ->
        ort_InferenceSession env (model_path self)
          (mkSessionOptions ORT_ENABLE_ALL intra inter)
          (providers_for (execution_provider self)) = Return s ->
        exists self' w',
          load env self w = (Return self', w')
          /\ session self' = Some s
          /\ MODEL_LOAD_TIME (metrics w') !! model_name self
             = Some (clock env (S (ticks w)) - clock env (ticks w))%Qc).
Proof.
  intros Htok Hintra Hinter. split.
  - intros Hpath. eexists. eexists. split.
    { unfold load.
      erewrite bind_Return by reflexivity.
      erewrite bind_Return by (unfold lift; rewrite Htok; reflexivity).
      cbv zeta. cbn [model_path model_name execution_provider tokenizer session].
      erewrite bind_Return by (unfold lift; rewrite Hintra; reflexivity).
      erewrite bind_Return by (unfold lift; rewrite Hinter; reflexivity).
      rewrite Hpath.
      erewrite bind_Return by reflexivity.
      erewrite bind_Return by reflexivity.
      reflexivity. }
    cbn. repeat split; try reflexivity.
    + apply lookup_insert_eq.
    + set_solver.
  - intros s Hpath Hsess. eexists. eexists. split.
    { unfold load.
      erewrite bind_Return by reflexivity.
      erewrite bind_Return by (unfold lift; rewrite Htok; reflexivity).
      cbv zeta. cbn [model_path model_name execution_provider tokenizer session].
      erewrite bind_Return by (unfold lift; rewrite Hintra; reflexivity).
      erewrite bind_Return by (unfold lift; rewrite Hinter; reflexivity).
      rewrite Hpath.
      erewrite bind_Return
        by (erewrite bind_Return by (unfold lift; rewrite Hsess; reflexivity);
            reflexivity).
      erewrite bind_Return by reflexivity.
      reflexivity. }
    cbn. split; [reflexivity |]. apply lookup_insert_eq.
Qed.

(** ** The properties at concrete requests *)

Lemma pretokenized_nonempty : Demo.pretokenized ≠ ∅.
Proof. apply insert_non_empty. Qed.

Lemma two_keys_nonempty : Demo.two_keys ≠ ∅.
Proof. apply insert_non_empty. Qed.

Lemma demo_mask_ok : attention_mask_ok (Arr [Demo.row [1; 1]]).
Proof.
  split.
  - cbn. repeat constructor; by right.
  - by vm_compute.
Qed.

(** C2 at a batch of one row of two tokens, with a loaded session. *)
Lemma infer_batch_size_and_tokens_witness :
  exists r w',
    infer Demo.env Demo.loaded_engine Demo.batch Demo.w0 = (Return r, w')
    /\ res_batch_size r = 1
    /\ res_tokens_processed r = 2
    /\ forall request w0,
         predict_inputs Demo.env Demo.loaded_engine request w0
         = (Return Demo.batch, Demo.w0) ->
         exists resp,
           predict Demo.env (Some Demo.loaded_engine) request w0
           = (Return resp, w')
           /\ batch_size resp = 1
           /\ tokens_processed resp = 2.
Proof.
  apply (infer_batch_size_and_tokens Demo.env Demo.loaded_engine Demo.batch
           [Demo.row [101; 102]] (Arr [Demo.row [1; 1]]) Demo.w0
           eq_refl eq_refl demo_mask_ok).
  exists (Arr [Demo.row [101; 102]]), (Arr [Demo.row [1; 1]]),
    (Arr [Demo.row [0; 0]]),
    (build (fun _ => 0%Qc) [1%nat; 2%nat; 768%nat] []),
    [build (fun _ => 0%Qc) [1%nat; 768%nat] []].
  split; [reflexivity |]. split; [reflexivity |]. split; [reflexivity |].
  split; [by vm_compute |]. split; [exact I |].
  repeat constructor.
Defined.

(** C3 at a session whose [run] fails. *)
Lemma infer_counts_error_and_reraises_witness :
  exists w',
    infer Demo.env Demo.failing_engine Demo.batch Demo.w0
    = (Raise (ExternalError "RuntimeException"), w')
    /\ value (REQUEST_COUNT (metrics w')) ("error", "bert-base-uncased")
       = (value (REQUEST_COUNT (metrics Demo.w0)) ("error", "bert-base-uncased")
          + 1)%Qc
    /\ value (ACTIVE_REQUESTS (metrics w')) "bert-base-uncased"
       = value (ACTIVE_REQUESTS (metrics Demo.w0)) "bert-base-uncased".
Proof.
  refine (infer_counts_error_and_reraises Demo.env Demo.failing_engine
            Demo.batch Demo.w0 (ExternalError "RuntimeException")
            (mkWorld (metrics (entered Demo.failing_engine Demo.w0)) 1 0 [])
            _ eq_refl).
  by vm_compute.
Defined.

(** C4 as stated fails on a batch of one row of two tokens: mock mode
    answers with token embeddings of shape [1, 512, 768], a session with
    BERT's signature with [1, 2, 768]. *)
Lemma mock_shape_differs_from_loaded :
  match fst (infer Demo.env Demo.mock_engine Demo.batch Demo.w0),
        fst (infer Demo.env Demo.loaded_engine Demo.batch Demo.w0) with
  | Return rm, Return rl =>
      shape (res_last_hidden_state rm) = [1; 512; 768]%nat
      /\ shape (res_last_hidden_state rl) = [1; 2; 768]%nat
      /\ shape (res_last_hidden_state rm) ≠ shape (res_last_hidden_state rl)
  | _, _ => False
  end.
Proof. vm_compute. split; [reflexivity |]. split; [reflexivity | discriminate]. Qed.

(** The amended C4 at the same batch. *)
Lemma mock_and_loaded_shapes_witness :
  exists rm rl wm wl,
    infer Demo.env Demo.mock_engine Demo.batch Demo.w0 = (Return rm, wm)
    /\ infer Demo.env Demo.loaded_engine Demo.batch Demo.w0 = (Return rl, wl)
    /\ option_map shape (res_pooler_output rm) = Some [1; 768]%nat
    /\ option_map shape (res_pooler_output rl) = Some [1; 768]%nat
    /\ shape (res_last_hidden_state rm) = list_shape [1; 512; 768]%nat
    /\ shape (res_last_hidden_state rl) = list_shape [1; 2; 768]%nat
    /\ (shape (res_last_hidden_state rm) = shape (res_last_hidden_state rl)
        <-> 2%nat = 512%nat).
Proof.
  refine (mock_and_loaded_shapes Demo.env Demo.mock_engine Demo.loaded_engine
            Demo.bert_session Demo.batch [Demo.row [101; 102]]
            (Arr [Demo.row [1; 1]]) (Arr [Demo.row [0; 0]])
            (build (fun _ => 0%Qc) [1%nat; 2%nat; 768%nat] [])
            (build (fun _ => 0%Qc) [1%nat; 768%nat] [])
            2%nat Demo.w0 Demo.w0
            eq_refl eq_refl eq_refl eq_refl eq_refl eq_refl _ demo_mask_ok _ _
            _ _).
  - discriminate.
  - by vm_compute.
  - by vm_compute.
  - apply shape_build.
  - apply shape_build.
Defined.

(** C5 at a request that carries all three shapes. *)
Lemma predict_precedence_witness :
  predict Demo.env (Some Demo.mock_engine)
    (mkRequest (Some "hello") (Some ["a"; "b"]) (Some Demo.pretokenized) false)
    Demo.w0
  = predict Demo.env (Some Demo.mock_engine)
      (mkRequest None None (Some Demo.pretokenized) false) Demo.w0
  /\ predict_inputs Demo.env Demo.mock_engine
       (mkRequest (Some "hello") (Some ["a"; "b"]) (Some Demo.pretokenized) false)
       Demo.w0
     = (Return Demo.batch, Demo.w0).
Proof.
  destruct (proj1 (predict_precedence Demo.env (Some Demo.mock_engine)
                     (Some "hello") (Some ["a"; "b"]) (Some Demo.pretokenized)
                     false Demo.w0)
              Demo.pretokenized eq_refl pretokenized_nonempty)
    as (Hsame & _ & Hused).
  split; [exact Hsame |].
  apply (Hused Demo.mock_engine
           (Demo.tensor [[101; 102]]) (Demo.tensor [[1; 1]])
           (Demo.tensor [[0; 0]])
           (Arr [Demo.row [101; 102]]) (Arr [Demo.row [1; 1]])
           (Arr [Demo.row [0; 0]])); by vm_compute.
Defined.

(** C6 as stated fails when the session's [run] fails on a batch of two
    tokens: the call raises and neither the tokens counter nor the
    batch-size histogram has a sample. *)
Lemma failed_run_records_no_tokens :
  np_sum (Arr [Demo.row [1; 1]]) = 2
  /\ fst (infer Demo.env Demo.failing_engine Demo.batch Demo.w0)
     = Raise (ExternalError "RuntimeException")
  /\ TOKENS_PROCESSED
       (metrics (snd (infer Demo.env Demo.failing_engine Demo.batch Demo.w0)))
     = ∅
  /\ BATCH_SIZE
       (metrics (snd (infer Demo.env Demo.failing_engine Demo.batch Demo.w0)))
     = ∅.
Proof. by vm_compute. Qed.

(** The amended C6 at the same call. *)
Lemma infer_failure_records_error_only_witness :
  exists w',
    infer Demo.env Demo.failing_engine Demo.batch Demo.w0
    = (Raise (ExternalError "RuntimeException"), w')
    /\ counts Demo.batch
       = Return (Z.of_nat (length [Demo.row [101; 102]]),
                 np_sum (Arr [Demo.row [1; 1]]))
    /\ records_error_only Demo.failing_engine Demo.w0 w'.
Proof.
  apply (proj2 (infer_failure_records_error_only Demo.env Demo.failing_engine
                  Demo.batch Demo.w0)
           Demo.failing_session [Demo.row [101; 102]] (Arr [Demo.row [1; 1]])
           (Arr [Demo.row [0; 0]]) (ExternalError "RuntimeException")
           eq_refl eq_refl eq_refl eq_refl eq_refl eq_refl).
Defined.

(** C7 as stated fails on the body [{"inputs": {"input_ids": [[101, 102]],
    "attention_mask": [[1, 1]]}}]: the request dies of an unhandled
    [KeyError], answered with status 500, not 400. *)
Lemma missing_key_is_not_a_client_error :
  fst (predict Demo.env (Some Demo.mock_engine)
         (mkRequest None None (Some Demo.two_keys) false) Demo.w0)
  = Raise (KeyError "token_type_ids")
  /\ http_status
       (fst (predict Demo.env (Some Demo.mock_engine)
               (mkRequest None None (Some Demo.two_keys) false) Demo.w0))
     = 500.
Proof. by vm_compute. Qed.

Lemma two_keys_convert k' v :
  Demo.two_keys !! k' = Some v -> exists a, np_array Demo.env v = Return a.
Proof.
  unfold Demo.two_keys. intros Hk.
  apply lookup_insert_Some in Hk as [[_ <-] | [_ Hk]];
    [eexists; by vm_compute |].
  apply lookup_insert_Some in Hk as [[_ <-] | [_ Hk]];
    [eexists; by vm_compute |].
  by rewrite lookup_empty in Hk.
Qed.

(** The amended C7 at the same request. *)
Lemma predict_missing_tensor_key_witness :
  predict Demo.env (Some Demo.mock_engine)
    (mkRequest None None (Some Demo.two_keys) false) Demo.w0
  = (Raise (KeyError "token_type_ids"), Demo.w0)
  /\ http_status
       (fst (predict Demo.env (Some Demo.mock_engine)
               (mkRequest None None (Some Demo.two_keys) false) Demo.w0))
     = 500.
Proof.
  destruct (predict_missing_tensor_key Demo.env Demo.mock_engine
              (mkRequest None None (Some Demo.two_keys) false) Demo.two_keys
              "token_type_ids" Demo.w0 eq_refl two_keys_nonempty eq_refl)
    as (e & Hp & He).
  destruct (He two_keys_convert) as [-> Hs].
  split; [exact Hp | exact Hs].
Defined.

(** C8 at an environment without the model file. *)
Lemma load_without_model_file_witness :
  exists self' w',
    load Demo.env
      (BertInferenceEngine_init (MODEL_PATH Demo.env)
         (EXECUTION_PROVIDER Demo.env)) Demo.w0
    = (Return self', w')
    /\ session self' = None
    /\ tokenizer self' = Some Demo.tokenizer
    /\ model_name self' = "bert-base-uncased"
    /\ MODEL_LOAD_TIME (metrics w') !! "bert-base-uncased"
       = Some (clock Demo.env 1 - clock Demo.env 0)%Qc
    /\ WarningModelNotFound "/models/bert-base-uncased/model.onnx" ∈ stdout w'.
Proof.
  apply (proj1 (load_without_model_file Demo.env
                  (BertInferenceEngine_init (MODEL_PATH Demo.env)
                     (EXECUTION_PROVIDER Demo.env))
                  Demo.tokenizer 4 2 Demo.w0 eq_refl eq_refl eq_refl)
           eq_refl).
Defined.

(** C10 at the body [{"inputs": {}, "texts": [], "text": ""}]. *)
Lemma predict_tests_truthiness_witness :
  predict Demo.env (Some Demo.mock_engine)
    (mkRequest (Some "") (Some []) (Some ∅) false) Demo.w0
  = (Raise (HTTPException 400 "No input provided"), Demo.w0).
Proof.
  apply (proj2 (predict_tests_truthiness Demo.env (Some Demo.mock_engine)
                  (mkRequest (Some "") (Some []) (Some ∅) false) Demo.w0)
           (or_intror eq_refl) (or_intror eq_refl) (or_intror eq_refl)).
Defined.

(** * Further properties of the pipeline *)

(** ** The [try] block of [infer], statement by statement *)

Lemma execution_succeeds_Return env self inputs rows mask w :
  inputs !! "input_ids" = Some (Arr rows) ->
  inputs !! "attention_mask" = Some mask ->
  execution_succeeds env self inputs ->
  exists result w1,
    infer_execute env self inputs (Z.of_nat (length rows)) w
    = (Return result, w1)
    /\ metrics w1 = metrics w /\ ticks w1 = ticks w.
Proof.
  intros Hids Hmask Hexec. unfold execution_succeeds in Hexec.
  unfold infer_execute. destruct (session self) as [sess|].
  - destruct Hexec as (a & b & c & o & os & Ha & Hb & Hc & Hrun & _).
    exists (o, head os), w. split; [| done].
    erewrite bind_Return by (apply getitem_Some, Ha).
    erewrite bind_Return by (apply getitem_Some, Hb).
    erewrite bind_Return by (apply getitem_Some, Hc).
    erewrite bind_Return by (unfold lift; rewrite Hrun; reflexivity).
    erewrite bind_Return by reflexivity.
    apply second_output.
  - eexists. eexists. split.
    + erewrite bind_Return by reflexivity.
      erewrite bind_Return
        by (apply np_random_randn_Return; repeat constructor; lia || done).
      erewrite bind_Return
        by (apply np_random_randn_Return; repeat constructor; lia).
      reflexivity.
    + done.
Qed.

Lemma Z2Qc_neg z : z < 0 -> (Z2Qc z < 0)%Qc.
Proof.
  intros Hz. unfold Qclt, Z2Qc.
  change (Qred (inject_Z z) < 0)%Q. rewrite Qred_correct.
  unfold Qlt. simpl. lia.
Qed.

Lemma Counter_inc_negative `{Countable K}
  (upd : (gmap K Qc -> gmap K Qc) -> Metrics -> Metrics) l amount w :
  (amount < 0)%Qc ->
  Counter_inc upd l amount w
  = (Raise (ValueError "Counters can only be incremented by non-negative amounts."),
     with_metrics (upd (fun c => <[l := value c l]> c)) w).
Proof.
  intros Ha. unfold Counter_inc.
  destruct (Qclt_le_dec amount 0) as [_|Hle]; [done |].
  exfalso. by apply (Qclt_not_le _ _ Ha).
Qed.

(** The recording statements when the token count is negative: the success
    sample and the latency are in, then the tokens counter refuses. *)
Lemma infer_record_metrics_negative env self start_time tokens batch_size result w :
  tokens < 0 ->
  infer_record_metrics env self start_time tokens batch_size result w
  = (Raise (ValueError "Counters can only be incremented by non-negative amounts."),
     mkWorld
       (set_TOKENS_PROCESSED
          (fun c => <[model_name self := value c (model_name self)]> c)
          (set_REQUEST_LATENCY
             (fun h => <[model_name self :=
                           (clock env (ticks w) - start_time)%Qc
                           :: observations h (model_name self)]> h)
             (set_REQUEST_COUNT
                (fun c => <[("success", model_name self) :=
                              (value c ("success", model_name self) + 1)%Qc]> c)
                (metrics w))))
       (S (ticks w)) (draws w) (stdout w)).
Proof.
  intros Htok. unfold infer_record_metrics.
  erewrite bind_Return by reflexivity. cbv zeta.
  erewrite bind_Return by apply Counter_inc_one.
  erewrite bind_Return by reflexivity.
  erewrite bind_Raise by (apply Counter_inc_negative, Z2Qc_neg, Htok).
  reflexivity.
Qed.

Lemma infer_record_metrics_nonneg env self start_time tokens batch_size result w :
  0 <= tokens ->
  infer_record_metrics env self start_time tokens batch_size result w
  = (Return (mkResult (fst result) (snd result)
               ((clock env (ticks w) - start_time) * Z2Qc 1000)%Qc
               batch_size tokens),
     mkWorld
       (record_success (model_name self) (clock env (ticks w) - start_time)%Qc
          tokens batch_size (metrics w))
       (S (ticks w)) (draws w) (stdout w)).
Proof. apply infer_record. Qed.

Lemma observations_insert_eq `{Countable K} (m : gmap K (list Qc)) l v :
  observations (<[l := v]> m) l = v.
Proof. unfold observations. by rewrite lookup_insert_eq. Qed.

Ltac metrics_simpl :=
  unfold record_success, entered, ticked, infer_finally, Gauge_inc, Gauge_dec,
    modify, with_metrics;
  cbn [fst snd metrics ticks draws stdout REQUEST_COUNT REQUEST_LATENCY
       TOKENS_PROCESSED BATCH_SIZE MODEL_LOAD_TIME ACTIVE_REQUESTS
       GPU_MEMORY_USED QUEUE_SIZE set_REQUEST_COUNT set_REQUEST_LATENCY
       set_TOKENS_PROCESSED set_BATCH_SIZE set_ACTIVE_REQUESTS
       set_MODEL_LOAD_TIME].

Ltac values :=
  repeat first
    [ rewrite value_insert_eq
    | rewrite value_insert_ne by congruence
    | rewrite observations_insert_eq ];
  try done.

(** ** The samples of a successful call *)

(** X1. When the counts are computable, the token count is not negative
    and execution goes through (mock mode or a session that returns), the
    call returns and records exactly: one more success, no error, the
    token count added to the tokens counter, the batch size observed, and
    a latency observed that is the difference of the two clock readings;
    the [latency_ms] of the result is 1000 times that observation. *)
Theorem infer_success_samples env self inputs rows mask w :
  inputs !! "input_ids" = Some (Arr rows) ->
  inputs !! "attention_mask" = Some mask ->
  0 <= np_sum mask ->
  execution_succeeds env self inputs ->
  exists r w',
    infer env self inputs w = (Return r, w')
    /\ value (REQUEST_COUNT (metrics w')) ("success", model_name self)
       = (value (REQUEST_COUNT (metrics w)) ("success", model_name self) + 1)%Qc
    /\ value (REQUEST_COUNT (metrics w')) ("error", model_name self)
       = value (REQUEST_COUNT (metrics w)) ("error", model_name self)
    /\ value (TOKENS_PROCESSED (metrics w')) (model_name self)
       = (value (TOKENS_PROCESSED (metrics w)) (model_name self)
          + Z2Qc (np_sum mask))%Qc
    /\ observations (BATCH_SIZE (metrics w')) (model_name self)
       = Z2Qc (Z.of_nat (length rows))
         :: observations (BATCH_SIZE (metrics w)) (model_name self)
    /\ observations (REQUEST_LATENCY (metrics w')) (model_name self)
       = (clock env (S (ticks w)) - clock env (ticks w))%Qc
         :: observations (REQUEST_LATENCY (metrics w)) (model_name self)
    /\ res_latency_ms r
       = ((clock env (S (ticks w)) - clock env (ticks w)) * Z2Qc 1000)%Qc.
Proof.
  intros Hids Hmask Htok Hexec.
  destruct (execution_succeeds_Return env self inputs rows mask
              (ticked (entered self w)) Hids Hmask Hexec)
    as (result & w1 & Hrun & Hm & Ht).
  assert (Htry : infer_try env self inputs (entered self w)
                 = infer_record_metrics env self (clock env (ticks w))
                     (np_sum mask) (Z.of_nat (length rows)) result w1).
  { rewrite (infer_try_counted env self inputs rows mask _ Hids Hmask).
    by erewrite bind_Return by exact Hrun. }
  rewrite infer_record_metrics_nonneg in Htry by done.
  rewrite Hm, Ht in Htry.
  eexists. eexists. split.
  { rewrite infer_unfold. apply (try_except_finally_Return _ _ _ _ _ _ Htry). }
  metrics_simpl. values.
Qed.

(** ** A negative token count *)

(** X2. When the attention mask sums to a negative number and execution
    goes through, the call fails in the tokens counter, which refuses a
    negative increment: [infer] raises that [ValueError] after the success
    sample and the latency were recorded, so the call is counted both as a
    success and as an error, while the tokens counter and the batch-size
    histogram get nothing. *)
Theorem infer_negative_tokens_counted_twice env self inputs rows mask w :
  inputs !! "input_ids" = Some (Arr rows) ->
  inputs !! "attention_mask" = Some mask ->
  np_sum mask < 0 ->
  execution_succeeds env self inputs ->
  exists w',
    infer env self inputs w
    = (Raise (ValueError
                "Counters can only be incremented by non-negative amounts."),
       w')
    /\ value (REQUEST_COUNT (metrics w')) ("success", model_name self)
       = (value (REQUEST_COUNT (metrics w)) ("success", model_name self) + 1)%Qc
    /\ value (REQUEST_COUNT (metrics w')) ("error", model_name self)
       = (value (REQUEST_COUNT (metrics w)) ("error", model_name self) + 1)%Qc
    /\ value (TOKENS_PROCESSED (metrics w')) (model_name self)
       = value (TOKENS_PROCESSED (metrics w)) (model_name self)
    /\ BATCH_SIZE (metrics w') = BATCH_SIZE (metrics w)
    /\ observations (REQUEST_LATENCY (metrics w')) (model_name self)
       = (clock env (S (ticks w)) - clock env (ticks w))%Qc
         :: observations (REQUEST_LATENCY (metrics w)) (model_name self).
Proof.
  intros Hids Hmask Htok Hexec.
  destruct (execution_succeeds_Return env self inputs rows mask
              (ticked (entered self w)) Hids Hmask Hexec)
    as (result & w1 & Hrun & Hm & Ht).
  assert (Htry : infer_try env self inputs (entered self w)
                 = infer_record_metrics env self (clock env (ticks w))
                     (np_sum mask) (Z.of_nat (length rows)) result w1).
  { rewrite (infer_try_counted env self inputs rows mask _ Hids Hmask).
    by erewrite bind_Return by exact Hrun. }
  rewrite infer_record_metrics_negative in Htry by done.
  rewrite Hm, Ht in Htry.
  eexists. split.
  { rewrite infer_unfold.
    apply (try_except_finally_Raise _ _ _ _ _ Htry eq_refl). }
  rewrite Counter_inc_one. metrics_simpl. values.
Qed.

(** ** A batch whose counts cannot be computed *)

(** X3. Whatever the engine (mock mode or any session), a batch without
    ["input_ids"], with an unsized ["input_ids"], or without
    ["attention_mask"] makes [infer] raise the corresponding [KeyError] or
    [TypeError]; the failure is counted once as an error and no other
    sample is recorded. *)
Theorem infer_uncountable_batch env self inputs e0 w :
  counts inputs = Raise e0 ->
  exists w',
    infer env self inputs w = (Raise e0, w')
    /\ (e0 = KeyError "input_ids"
        \/ e0 = TypeError "len() of unsized object"
        \/ e0 = KeyError "attention_mask")
    /\ value (REQUEST_COUNT (metrics w')) ("error", model_name self)
       = (value (REQUEST_COUNT (metrics w)) ("error", model_name self) + 1)%Qc
    /\ value (REQUEST_COUNT (metrics w')) ("success", model_name self)
       = value (REQUEST_COUNT (metrics w)) ("success", model_name self)
    /\ TOKENS_PROCESSED (metrics w') = TOKENS_PROCESSED (metrics w)
    /\ BATCH_SIZE (metrics w') = BATCH_SIZE (metrics w)
    /\ REQUEST_LATENCY (metrics w') = REQUEST_LATENCY (metrics w).
Proof.
  intros Hc.
  pose proof (infer_try_uncountable env self inputs e0 (entered self w) Hc)
    as Htry.
  eexists. split.
  { rewrite infer_unfold.
    apply (try_except_finally_Raise _ _ _ _ _ Htry (counts_Exception _ _ Hc)). }
  split.
  { unfold counts in Hc.
    destruct (inputs !! "input_ids") as [[z|rows]|]; cbn [len] in Hc.
    - injection Hc as <-. auto.
    - destruct (inputs !! "attention_mask"); [discriminate |].
      injection Hc as <-. auto.
    - injection Hc as <-. auto. }
  rewrite Counter_inc_one. metrics_simpl. values.
Qed.

(** ** The outputs of a loaded session *)

(** X5. A session that returns a single output tensor is accepted: the
    call succeeds with that tensor as token embeddings and no pooled
    output, and the response of [predict] carries [pooler_output = None]
    (with the embeddings only on request). *)
Theorem single_output_has_no_pooler env self sess inputs rows mask c o w :
  session self = Some sess ->
  inputs !! "input_ids" = Some (Arr rows) ->
  inputs !! "attention_mask" = Some mask ->
  inputs !! "token_type_ids" = Some c ->
  run sess (feed (Arr rows) mask c) = Return [o] ->
  0 <= np_sum mask ->
  exists r w',
    infer env self inputs w = (Return r, w')
    /\ res_last_hidden_state r = o
    /\ res_pooler_output r = None
    /\ forall request w0,
         predict_inputs env self request w0 = (Return inputs, w) ->
         is_list o ->
         exists resp,
           predict env (Some self) request w0 = (Return resp, w')
           /\ pooler_output resp = None
           /\ embeddings resp
              = (if include_embeddings request then Some o else None).
Proof.
  intros Hsess Hids Hmask Htt Hrun Htok.
  pose proof (infer_try_loaded env self sess inputs rows mask c o []
                (entered self w) Hsess Hids Hmask Htt Hrun Htok) as Htry.
  assert (Hinfer := try_except_finally_Return _ (infer_except self) self
                      _ _ _ Htry).
  rewrite <- infer_unfold in Hinfer.
  eexists. eexists. split; [exact Hinfer |].
  split; [reflexivity |]. split; [reflexivity |].
  intros request w0 Hin Ho. eexists. split.
  - eapply predict_response; [exact Hin | exact Hinfer | exact Ho |].
    cbn [res_pooler_output head]. discriminate.
  - split; reflexivity.
Qed.

(** X6. A session that returns no output tensor at all makes [infer] raise
    [IndexError]; the call is counted as an error and records nothing
    else. *)
Theorem no_output_is_an_error env self sess inputs rows mask c w :
  session self = Some sess ->
  inputs !! "input_ids" = Some (Arr rows) ->
  inputs !! "attention_mask" = Some mask ->
  inputs !! "token_type_ids" = Some c ->
  run sess (feed (Arr rows) mask c) = Return [] ->
  exists w',
    infer env self inputs w
    = (Raise (IndexError "list index out of range"), w')
    /\ value (REQUEST_COUNT (metrics w')) ("error", model_name self)
       = (value (REQUEST_COUNT (metrics w)) ("error", model_name self) + 1)%Qc
    /\ value (REQUEST_COUNT (metrics w')) ("success", model_name self)
       = value (REQUEST_COUNT (metrics w)) ("success", model_name self)
    /\ TOKENS_PROCESSED (metrics w') = TOKENS_PROCESSED (metrics w)
    /\ BATCH_SIZE (metrics w') = BATCH_SIZE (metrics w).
Proof.
  intros Hsess Hids Hmask Htt Hrun.
  assert (Htry : infer_try env self inputs (entered self w)
                 = (Raise (IndexError "list index out of range"),
                    ticked (entered self w))).
  { rewrite (infer_try_counted env self inputs rows mask _ Hids Hmask).
    apply bind_Raise. unfold infer_execute. rewrite Hsess.
    erewrite bind_Return by (apply getitem_Some, Hids).
    erewrite bind_Return by (apply getitem_Some, Hmask).
    erewrite bind_Return by (apply getitem_Some, Htt).
    erewrite bind_Return by (unfold lift; rewrite Hrun; reflexivity).
    by apply bind_Raise. }
  eexists. split.
  { rewrite infer_unfold. apply (try_except_finally_Raise _ _ _ _ _ Htry eq_refl). }
  rewrite Counter_inc_one. metrics_simpl. values.
Qed.

(** ** Every call is counted once *)

Lemma infer_execute_metrics env self inputs b :
  preserves (fun m => m) (infer_execute env self inputs b).
Proof. unfold infer_execute. frame. Qed.

Lemma counts_Return inputs b t :
  counts inputs = Return (b, t) ->
  exists rows mask,
    inputs !! "input_ids" = Some (Arr rows)
    /\ inputs !! "attention_mask" = Some mask
    /\ b = Z.of_nat (length rows) /\ t = np_sum mask.
Proof.
  unfold counts. intros Hc.
  destruct (inputs !! "input_ids") as [[z|rows]|]; cbn [len] in Hc;
    try discriminate.
  destruct (inputs !! "attention_mask") as [mask|]; [|discriminate].
  injection Hc as <- <-. by exists rows, mask.
Qed.

(** What the [try] block has written when it ends, for a batch whose token
    count is not negative: the four success samples if it returns, nothing
    if it raises. *)
Lemma infer_try_metrics env self inputs w :
  (forall mask, inputs !! "attention_mask" = Some mask -> 0 <= np_sum mask) ->
  match infer_try env self inputs w with
  | (Return r, w') =>
      exists latency,
        metrics w'
        = record_success (model_name self) latency (res_tokens_processed r)
            (res_batch_size r) (metrics w)
  | (Raise _, w') => metrics w' = metrics w
  end.
Proof.
  intros Hpos. destruct (counts inputs) as [[b t]|e0] eqn:Hc.
  2: { by rewrite (infer_try_uncountable _ _ _ _ _ Hc). }
  destruct (counts_Return _ _ _ Hc) as (rows & mask & Hids & Hmask & -> & ->).
  rewrite (infer_try_counted env self inputs rows mask _ Hids Hmask).
  pose proof (infer_execute_metrics env self inputs (Z.of_nat (length rows))
                (ticked w)) as Hm.
  destruct (infer_execute env self inputs (Z.of_nat (length rows)) (ticked w))
    as [[result|e] w1] eqn:Hrun; cbn [snd] in Hm.
  - erewrite bind_Return by exact Hrun.
    rewrite infer_record_metrics_nonneg by eauto.
    eexists. cbn [metrics res_tokens_processed res_batch_size].
    by rewrite Hm.
  - erewrite bind_Raise by exact Hrun. exact Hm.
Qed.

(** X7. For a batch whose token count is not negative, every call of
    [infer] moves the request counter by exactly one sample: a call that
    returns adds one success and no error, a call that raises an
    [Exception] adds one error and no success; only a condition outside
    [Exception] leaves both children as they were. *)
Theorem infer_counted_once env self inputs w :
  (forall mask, inputs !! "attention_mask" = Some mask -> 0 <= np_sum mask) ->
  let success w := value (REQUEST_COUNT (metrics w)) ("success", model_name self) in
  let error w := value (REQUEST_COUNT (metrics w)) ("error", model_name self) in
  match infer env self inputs w with
  | (Return _, w') => success w' = (success w + 1)%Qc /\ error w' = error w
  | (Raise e, w') =>
      if isinstance_Exception e
      then success w' = success w /\ error w' = (error w + 1)%Qc
      else success w' = success w /\ error w' = error w
  end.
Proof.
  intros Hpos success error. subst success error.
  pose proof (infer_try_metrics env self inputs (entered self w) Hpos) as Hm.
  rewrite infer_unfold.
  destruct (infer_try env self inputs (entered self w)) as [[r|e] wt] eqn:Htry.
  - destruct Hm as [latency Hm].
    rewrite (try_except_finally_Return _ _ _ _ _ _ Htry).
    metrics_simpl. rewrite Hm. metrics_simpl. values.
  - destruct (isinstance_Exception e) eqn:He.
    + rewrite (try_except_finally_Raise _ _ _ _ _ Htry He), He.
      rewrite Counter_inc_one. metrics_simpl. rewrite Hm. metrics_simpl. values.
    + rewrite (try_except_finally_BaseOnly _ _ _ _ _ Htry He), He.
      metrics_simpl. rewrite Hm. metrics_simpl. done.
Qed.

(** ** Normalisation of the request *)

Lemma stateless_ret {A} (a : A) : stateless (ret a).
Proof. by intros w. Qed.

Lemma stateless_raise {A} e : stateless (raise (A:=A) e).
Proof. by intros w. Qed.

Lemma stateless_lift {A} (o : outcome A) : stateless (lift o).
Proof. by intros w. Qed.

Lemma stateless_getitem {V} (d : gmap string V) k : stateless (getitem d k).
Proof. intros w. unfold getitem. by destruct (d !! k). Qed.

Lemma stateless_bind {A B} (c : M A) (k : A -> M B) :
  stateless c -> (forall a, stateless (k a)) -> stateless (bind c k).
Proof.
  intros Hc Hk w. unfold bind. specialize (Hc w).
  destruct (c w) as [[a|e] w1]; cbn [snd] in *; subst w1; [apply Hk | done].
Qed.

Lemma stateless_tokenize self texts max_length :
  stateless (tokenize self texts max_length).
Proof.
  unfold tokenize. destruct (tokenizer self); [| apply stateless_raise].
  repeat (apply stateless_bind; [| intros ?]);
    auto using stateless_lift, stateless_getitem, stateless_ret.
Qed.

Lemma stateless_predict_inputs env engine request :
  stateless (predict_inputs env engine request).
Proof.
  unfold predict_inputs.
  destruct (truthy_dict (inputs request)).
  { repeat (apply stateless_bind; [| intros ?]);
      auto using stateless_lift, stateless_getitem, stateless_ret. }
  destruct (truthy_list (texts request)); [by apply stateless_tokenize |].
  destruct (truthy_str (text request)); [by apply stateless_tokenize |].
  apply stateless_raise.
Qed.

(** X8. Whatever goes wrong while the request is turned into a batch (no
    input, a missing tensor key, a tensor NumPy refuses, a tokenizer
    failure, no tokenizer), [predict] raises that very exception with the
    process state untouched: the failure never reaches [infer], so it is
    counted by no metric, the error counter included. *)
Theorem normalisation_failure_is_not_counted env engine request w e w1 :
  predict_inputs env engine request w = (Raise e, w1) ->
  predict env (Some engine) request w = (Raise e, w)
  /\ metrics (snd (predict env (Some engine) request w)) = metrics w.
Proof.
  intros Hin.
  pose proof (stateless_predict_inputs env engine request w) as Hw.
  rewrite Hin in Hw. cbn [snd] in Hw. subst w1.
  assert (Hp : predict env (Some engine) request w = (Raise e, w)).
  { unfold predict. by apply bind_Raise. }
  split; [exact Hp |]. by rewrite Hp.
Qed.

(** X9. A request with a single non-empty [text] (and no other shape) is
    handled exactly as the request with the one-element batch [[text]].
    The empty string differs: as [text] it is no input at all (HTTP 400),
    inside [texts] it is tokenized like any other string. *)
Theorem single_text_is_a_batch_of_one env engine s t i inc w :
  s ≠ "" ->
  i = None \/ i = Some ∅ ->
  t = None \/ t = Some [] ->
  predict env engine (mkRequest (Some s) t i inc) w
  = predict env engine (mkRequest None (Some [s]) None inc) w
  /\ (forall e,
        predict_inputs env e (mkRequest (Some "") t i inc) w
        = (Raise (HTTPException 400 "No input provided"), w)
        /\ predict_inputs env e (mkRequest None (Some [""]) None inc)
           = tokenize e [""] (MAX_SEQUENCE_LENGTH env)).
Proof.
  intros Hs Hi Ht.
  assert (Hf : truthy_dict i = false).
  { destruct Hi as [-> | ->]; [reflexivity |].
    rewrite truthy_dict_Some. by case_decide. }
  assert (Hl : truthy_list t = false) by (by destruct Ht as [-> | ->]).
  split.
  - destruct engine as [e|]; [| reflexivity].
    unfold predict, predict_inputs. cbn [inputs texts text].
    rewrite Hf, Hl. by destruct s.
  - intros e. split; [| reflexivity].
    unfold predict_inputs. cbn [inputs texts text]. by rewrite Hf, Hl.
Qed.

(** X10. [include_embeddings] decides one field of the response and
    nothing else: whenever the request with [include_embeddings = True] is
    answered, the same request with [False] is answered too, with the same
    state, the same pooled output, latency, batch size and token count,
    and [embeddings = None]. *)
Theorem include_embeddings_only_adds_embeddings env engine s t i w resp w' :
  predict env engine (mkRequest s t i true) w = (Return resp, w') ->
  predict env engine (mkRequest s t i false) w
  = (Return (mkResponse None (pooler_output resp) (latency_ms resp)
               (batch_size resp) (tokens_processed resp)),
     w').
Proof.
  destruct engine as [e|]; [| discriminate].
  unfold predict.
  change (predict_inputs env e (mkRequest s t i false))
    with (predict_inputs env e (mkRequest s t i true)).
  unfold bind.
  destruct (predict_inputs env e (mkRequest s t i true) w)
    as [[batch|e1] w1]; [| discriminate].
  destruct (infer env e batch w1) as [[r|e2] w2]; [| discriminate].
  cbn [include_embeddings].
  destruct (res_last_hidden_state r) as [z|rows]; [discriminate |].
  cbn [validate_Optional_list ret raise].
  destruct (res_pooler_output r) as [[z|prows]|]; cbn; intros Hr;
    try discriminate; by injection Hr as <- <-.
Qed.

(** ** The gauge between requests *)

Lemma infer_keeps_gauge env self inputs l :
  preserves (fun m => value (ACTIVE_REQUESTS m) l) (infer env self inputs).
Proof.
  intros w. rewrite infer_unfold.
  change (infer_finally self)
    with (Gauge_dec set_ACTIVE_REQUESTS (model_name self)).
  rewrite (try_except_finally_dec _ _ (model_name self) (entered self w)
             (infer_try_ACTIVE_REQUESTS env self inputs)
             (infer_except_ACTIVE_REQUESTS self)).
  rewrite entered_ACTIVE_REQUESTS, Qc_inc_dec.
  destruct (decide (model_name self = l)) as [<- | Hne].
  - by rewrite value_insert_eq.
  - rewrite value_insert_ne by done. unfold entered. simpl.
    by rewrite value_insert_ne.
Qed.

Lemma validate_Optional_list_preserves {X} (g : Metrics -> X) f v :
  preserves g (validate_Optional_list f v).
Proof. intros w. by destruct v as [[?|?]|]. Qed.

Lemma predict_keeps_gauge env engine request l :
  preserves (fun m => value (ACTIVE_REQUESTS m) l) (predict env engine request).
Proof.
  unfold predict. destruct engine as [e|]; [| apply preserves_raise].
  apply preserves_bind.
  { intros w. by rewrite stateless_predict_inputs. }
  intros batch. apply preserves_bind; [apply infer_keeps_gauge |].
  intros r. apply preserves_bind; [apply validate_Optional_list_preserves |].
  intros e1. apply preserves_bind; [apply validate_Optional_list_preserves |].
  intros p. apply preserves_ret.
Qed.

(** X11. Whatever requests a worker has handled, answered or refused,
    and whatever the engine, once they are done the active-requests gauge
    of every model reads what it read before the first of them: between
    requests the gauge never shows a request in flight. *)
Theorem serve_keeps_gauge env engine requests w l :
  value (ACTIVE_REQUESTS (metrics (serve env engine requests w))) l
  = value (ACTIVE_REQUESTS (metrics w)) l.
Proof.
  unfold serve. revert w.
  induction requests as [|request requests IH]; intros w; [reflexivity |].
  cbn [foldl]. rewrite IH. apply (predict_keeps_gauge env engine request l).
Qed.

(** ** Start-up and the health endpoint *)

Lemma load_absent_file env self tok intra inter w :
  from_pretrained env "google-bert/bert-base-uncased" = Return tok ->
  getenv_int env "ONNX_INTRA_OP_THREADS" "4" = Return intra ->
  getenv_int env "ONNX_INTER_OP_THREADS" "2" = Return inter ->
  path_exists env (model_path self) = false ->
  exists w',
    load env self w
    = (Return (mkEngine (model_path self) (model_name self) (Some tok) None
                 (execution_provider self)),
       w').
Proof.
  intros Htok Hintra Hinter Hpath. eexists. unfold load.
  erewrite bind_Return by reflexivity.
  erewrite bind_Return by (unfold lift; rewrite Htok; reflexivity).
  cbv zeta. cbn [model_path model_name execution_provider tokenizer session].
  erewrite bind_Return by (unfold lift; rewrite Hintra; reflexivity).
  erewrite bind_Return by (unfold lift; rewrite Hinter; reflexivity).
  rewrite Hpath.
  erewrite bind_Return by reflexivity.
  erewrite bind_Return by reflexivity.
  reflexivity.
Qed.

(** X12. After a start-up that finds no model file, the global engine is
    set, [/health] answers "healthy" with [model_loaded = False], and a
    request normalised to a batch with a well-formed attention mask is
    still answered with status 200 (mock mode), not refused with 503; with
    no engine (before start-up, after shut-down) every request gets 503
    and [/health] still answers "healthy". *)
Theorem degraded_startup_still_serves env tok intra inter w :
  from_pretrained env "google-bert/bert-base-uncased" = Return tok ->
  getenv_int env "ONNX_INTRA_OP_THREADS" "4" = Return intra ->
  getenv_int env "ONNX_INTER_OP_THREADS" "2" = Return inter ->
  path_exists env (MODEL_PATH env) = false ->
  0 <= MAX_SEQUENCE_LENGTH env ->
  exists engine w1,
    lifespan_startup env w = (Return (Some engine), w1)
    /\ health (Some engine) = mkHealth "healthy" false
    /\ (forall request w2 batch w3 rows mask,
          predict_inputs env engine request w2 = (Return batch, w3) ->
          batch !! "input_ids" = Some (Arr rows) ->
          batch !! "attention_mask" = Some mask ->
          attention_mask_ok mask ->
          http_status (fst (predict env (Some engine) request w2)) = 200)
    /\ (forall request w2,
          http_status (fst (predict env lifespan_shutdown request w2)) = 503)
    /\ health lifespan_shutdown = mkHealth "healthy" false.
Proof.
  intros Htok Hintra Hinter Hpath Hmax.
  destruct (load_absent_file env
              (BertInferenceEngine_init (MODEL_PATH env) (EXECUTION_PROVIDER env))
              tok intra inter w Htok Hintra Hinter Hpath) as [w1 Hload].
  eexists. exists w1. split.
  { unfold lifespan_startup. by erewrite bind_Return by exact Hload. }
  split; [reflexivity |]. split; [| split; reflexivity].
  intros request w2 batch w3 rows mask Hin Hids Hmask Hok.
  destruct (np_sum_attention_mask _ Hok) as [_ Hpos].
  set (engine := mkEngine _ _ _ _ _).
  pose proof (infer_try_mock env engine batch rows mask (entered engine w3)
                eq_refl Hids Hmask Hmax Hpos) as Htry.
  assert (Hinfer := try_except_finally_Return _ (infer_except engine) engine
                      _ _ _ Htry).
  rewrite <- infer_unfold in Hinfer.
  erewrite predict_response; [reflexivity | exact Hin | exact Hinfer | exact I |].
  cbn [res_pooler_output]. intros p Hp. injection Hp as <-. exact I.
Qed.

(** X13. A failure to resolve the tokenizer, or to build the session from
    a model file that exists, is fatal for [load]: it raises that
    exception, and neither the load-time gauge nor any other metric is
    written and nothing is printed. *)
Theorem load_failures_are_fatal env self e w :
  (from_pretrained env "google-bert/bert-base-uncased" = Raise e ->
   load env self w = (Raise e, ticked w))
  /\ (forall tok intra inter,
        from_pretrained env "google-bert/bert-base-uncased" = Return tok ->
        getenv_int env "ONNX_INTRA_OP_THREADS" "4" = Return intra ->
        getenv_int env "ONNX_INTER_OP_THREADS" "2" = Return inter ->
        path_exists env (model_path self) = true ->
        ort_InferenceSession env (model_path self)
          (mkSessionOptions ORT_ENABLE_ALL intra inter)
          (providers_for (execution_provider self)) = Raise e ->
        load env self w = (Raise e, ticked w)).
Proof.
  split.
  - intros Htok. unfold load.
    erewrite bind_Return by reflexivity.
    apply bind_Raise. unfold lift. by rewrite Htok.
  - intros tok intra inter Htok Hintra Hinter Hpath Hsess. unfold load.
    erewrite bind_Return by reflexivity.
    erewrite bind_Return by (unfold lift; rewrite Htok; reflexivity).
    cbv zeta. cbn [model_path model_name execution_provider tokenizer session].
    erewrite bind_Return by (unfold lift; rewrite Hintra; reflexivity).
    erewrite bind_Return by (unfold lift; rewrite Hinter; reflexivity).
    rewrite Hpath.
    apply bind_Raise. apply bind_Raise. unfold lift. by rewrite Hsess.
Qed.

(** X14. The model path of the module is the default path when the
    configured path does not exist and the default one does, and the
    configured path in every other case (also when neither exists); hence
    it exists exactly when the configured or the default path exists, and
    when [MODEL_PATH] is not set the fallback changes nothing. *)
Theorem resolve_MODEL_PATH_exists getenv (exists_ : string -> bool) :
  let configured := default "/models/bert-base-uncased/model.onnx" getenv in
  let alt_path := "/models/bert-base-uncased/model.onnx" in
  (exists_ configured = false -> exists_ alt_path = true ->
   resolve_MODEL_PATH getenv exists_ = alt_path)
  /\ (exists_ configured = true \/ exists_ alt_path = false ->
      resolve_MODEL_PATH getenv exists_ = configured)
  /\ exists_ (resolve_MODEL_PATH getenv exists_)
     = exists_ configured || exists_ alt_path
  /\ (getenv = None -> resolve_MODEL_PATH getenv exists_ = alt_path).
Proof.
  intros configured alt_path. unfold resolve_MODEL_PATH.
  fold configured. fold alt_path.
  destruct (exists_ configured) eqn:Hc; cbn [negb].
  - split; [discriminate |]. split; [done |].
    split; [by rewrite Hc |]. by intros ->.
  - destruct (exists_ alt_path) eqn:Ha.
    + split; [done |]. split; [by intros [? | ?] |].
      split; [by rewrite Ha |]. done.
    + split; [discriminate |]. split; [done |].
      split; [by rewrite Hc |]. by intros ->.
Qed.

(** ** What [tokenize] hands to the executor *)

Lemma entries_ndmap {A B} (f : A -> B) :
  forall a : ndarray A, entries (ndmap f a) = map f (entries a).
Proof.
  fix IH 1. intros [x|rows]; [reflexivity |].
  cbn [ndmap entries].
  induction rows as [|r rows IHrows]; [reflexivity |].
  cbn [map concat]. by rewrite map_app, IH, IHrows.
Qed.

Lemma wrap64_range z : - 2 ^ 63 <= wrap64 z < 2 ^ 63.
Proof.
  unfold wrap64.
  pose proof (Z.mod_pos_bound (z + 2 ^ 63) (2 ^ 64) ltac:(lia)). lia.
Qed.

Lemma astype_int64_range a :
  Forall (fun z => - 2 ^ 63 <= z < 2 ^ 63) (entries (astype_int64 a)).
Proof.
  unfold astype_int64. rewrite entries_ndmap.
  apply Forall_forall. intros z Hz.
  apply list_elem_of_In, in_map_iff in Hz as (y & <- & _). apply wrap64_range.
Qed.

(** X15. Whenever [tokenize] returns, the batch holds exactly the three
    tensors ["input_ids"], ["attention_mask"] and ["token_type_ids"]
    (anything else the tokenizer returned is dropped), all their entries
    fit [int64], and the process state is untouched. *)
Theorem tokenize_gives_three_int64_tensors self texts max_length w batch w' :
  tokenize self texts max_length w = (Return batch, w') ->
  w' = w
  /\ dom batch = {["input_ids"; "attention_mask"; "token_type_ids"]}
  /\ forall k a, batch !! k = Some a ->
       Forall (fun z => - 2 ^ 63 <= z < 2 ^ 63) (entries a).
Proof.
  unfold tokenize. destruct (tokenizer self) as [tok|]; [| discriminate].
  unfold bind, lift, getitem, ret, raise.
  destruct (tok texts max_length) as [encoded|e]; [| discriminate].
  destruct (encoded !! "input_ids") as [a|]; [| discriminate].
  destruct (encoded !! "attention_mask") as [b|]; [| discriminate].
  destruct (encoded !! "token_type_ids") as [c|]; [| discriminate].
  intros Hr. injection Hr as <- <-.
  split; [reflexivity |]. split.
  - unfold feed. rewrite !dom_insert_L, dom_empty_L. set_solver.
  - intros k t Hk. unfold feed in Hk.
    apply lookup_insert_Some in Hk as [[_ <-] | [_ Hk]];
      [apply astype_int64_range |].
    apply lookup_insert_Some in Hk as [[_ <-] | [_ Hk]];
      [apply astype_int64_range |].
    apply lookup_insert_Some in Hk as [[_ <-] | [_ Hk]];
      [apply astype_int64_range |].
    by rewrite lookup_empty in Hk.
Qed.

(** ** The analysis of the load tester *)

Lemma error_counts_foldl (l : list LoadTester.RequestResult)
  (acc : gmap string Z) k :
  default 0
    (foldl (fun error_counts r =>
              <[LoadTester.error_key r :=
                  default 0 (error_counts !! LoadTester.error_key r) + 1]>
                error_counts) acc l !! k)
  = default 0 (acc !! k)
    + Z.of_nat (length (List.filter
                          (fun r => bool_decide (LoadTester.error_key r = k)) l)).
Proof.
  revert acc. induction l as [|r l IH]; intros acc; cbn [foldl List.filter length].
  - lia.
  - rewrite IH. case_bool_decide as Hk.
    + subst k. rewrite lookup_insert_eq. cbn [from_option id length]. lia.
    + by rewrite lookup_insert_ne.
Qed.

(** X16. In the analysis of a load test every result is either successful
    or failed ([total_requests = successful + failed]), and the error table
    holds, under each key, the number of failed results with that key; a
    key no failed result has is not in the table. *)
Theorem analyze_results_tally results total_time concurrency :
  let '(summary, errors) :=
    LoadTester._analyze_results results total_time concurrency in
  LoadTester.total_requests summary
  = LoadTester.num_successful summary + LoadTester.num_failed summary
  /\ (forall k,
        default 0 (errors !! k)
        = Z.of_nat (length (List.filter
                              (fun r => bool_decide (LoadTester.error_key r = k))
                              (LoadTester.failed results))))
  /\ (forall k,
        (forall r, r ∈ LoadTester.failed results -> LoadTester.error_key r ≠ k) ->
        errors !! k = None).
Proof.
  cbn [LoadTester._analyze_results LoadTester.total_requests
       LoadTester.num_successful LoadTester.num_failed].
  split; [| split].
  - unfold LoadTester.successful, LoadTester.failed.
    induction results as [|r results IH]; [reflexivity |].
    cbn [List.filter length]. destruct (LoadTester.success r); cbn [negb length]; lia.
  - intros k. unfold LoadTester.error_counts.
    rewrite error_counts_foldl. rewrite lookup_empty. cbn [from_option]. lia.
  - intros k. unfold LoadTester.error_counts.
    generalize (LoadTester.failed results). intros l Hl.
    assert (Hgen : forall acc : gmap string Z,
               acc !! k = None ->
               foldl (fun error_counts r =>
                        <[LoadTester.error_key r :=
                            default 0 (error_counts !! LoadTester.error_key r) + 1]>
                          error_counts) acc l !! k = None).
    { induction l as [|r l IH]; intros acc Hacc; [exact Hacc |].
      cbn [foldl]. apply IH.
      - intros r' Hr'. apply Hl. by right.
      - rewrite lookup_insert_ne; [exact Hacc |]. apply Hl. by left. }
    apply Hgen, lookup_empty.
Qed.

(** X17. A request of the load tester succeeds exactly when the response
    status is 200; a time-out is tallied under ["timeout"], a response
    with another status under ["http_<status>"], and two different
    statuses never share a key. *)
Theorem make_request_error_keys timeout start_time now :
  (forall s,
     LoadTester.success
       (LoadTester._make_request timeout start_time now (LoadTester.Response s))
     = true <-> s = 200)
  /\ LoadTester.error_key
       (LoadTester._make_request timeout start_time now LoadTester.Timeout)
     = "timeout"
  /\ (forall s,
        LoadTester.error_key
          (LoadTester._make_request timeout start_time now (LoadTester.Response s))
        = "http_" +:+ pretty s)
  /\ (forall a b,
        LoadTester.error_key
          (LoadTester._make_request timeout start_time now (LoadTester.Response a))
        = LoadTester.error_key
            (LoadTester._make_request timeout start_time now (LoadTester.Response b))
        -> a = b).
Proof.
  split; [| split; [| split]].
  - intros s. cbn. apply Z.eqb_eq.
  - reflexivity.
  - reflexivity.
  - intros a b Hab. cbn in Hab.
    apply (inj (String.append "http_")) in Hab.
    by apply (inj pretty) in Hab.
Qed.

(** ** The further properties at concrete calls *)

Lemma pretokenized_normalised :
  predict_inputs Demo.env Demo.loaded_engine
    (mkRequest None None (Some Demo.pretokenized) true) Demo.w0
  = (Return Demo.batch, Demo.w0).
Proof. by vm_compute. Qed.

(** X1 in mock mode. *)
Lemma infer_success_samples_witness :
  exists r w',
    infer Demo.env Demo.mock_engine Demo.batch Demo.w0 = (Return r, w')
    /\ value (REQUEST_COUNT (metrics w')) ("success", "bert-base-uncased")
       = (value (REQUEST_COUNT (metrics Demo.w0)) ("success", "bert-base-uncased")
          + 1)%Qc
    /\ value (REQUEST_COUNT (metrics w')) ("error", "bert-base-uncased")
       = value (REQUEST_COUNT (metrics Demo.w0)) ("error", "bert-base-uncased")
    /\ value (TOKENS_PROCESSED (metrics w')) "bert-base-uncased"
       = (value (TOKENS_PROCESSED (metrics Demo.w0)) "bert-base-uncased"
          + Z2Qc (np_sum (Arr [Demo.row [1%Z; 1%Z]])))%Qc
    /\ observations (BATCH_SIZE (metrics w')) "bert-base-uncased"
       = Z2Qc 1 :: observations (BATCH_SIZE (metrics Demo.w0)) "bert-base-uncased"
    /\ observations (REQUEST_LATENCY (metrics w')) "bert-base-uncased"
       = (clock Demo.env 1 - clock Demo.env 0)%Qc
         :: observations (REQUEST_LATENCY (metrics Demo.w0)) "bert-base-uncased"
    /\ res_latency_ms r
       = ((clock Demo.env 1 - clock Demo.env 0) * Z2Qc 1000)%Qc.
Proof.
  apply (infer_success_samples Demo.env Demo.mock_engine Demo.batch
           [Demo.row [101; 102]] (Arr [Demo.row [1; 1]]) Demo.w0
           eq_refl eq_refl).
  - by vm_compute.
  - by vm_compute.
Defined.

(** X2 at a mask that sums to -1. *)
Lemma infer_negative_tokens_counted_twice_witness :
  exists w',
    infer Demo.env Demo.mock_engine Demo.negative_batch Demo.w0
    = (Raise (ValueError
                "Counters can only be incremented by non-negative amounts."),
       w')
    /\ value (REQUEST_COUNT (metrics w')) ("success", "bert-base-uncased")
       = (value (REQUEST_COUNT (metrics Demo.w0)) ("success", "bert-base-uncased")
          + 1)%Qc
    /\ value (REQUEST_COUNT (metrics w')) ("error", "bert-base-uncased")
       = (value (REQUEST_COUNT (metrics Demo.w0)) ("error", "bert-base-uncased")
          + 1)%Qc
    /\ value (TOKENS_PROCESSED (metrics w')) "bert-base-uncased"
       = value (TOKENS_PROCESSED (metrics Demo.w0)) "bert-base-uncased"
    /\ BATCH_SIZE (metrics w') = BATCH_SIZE (metrics Demo.w0)
    /\ observations (REQUEST_LATENCY (metrics w')) "bert-base-uncased"
       = (clock Demo.env 1 - clock Demo.env 0)%Qc
         :: observations (REQUEST_LATENCY (metrics Demo.w0)) "bert-base-uncased".
Proof.
  apply (infer_negative_tokens_counted_twice Demo.env Demo.mock_engine
           Demo.negative_batch [Demo.row [101; 102]] (Arr [Demo.row [-1; 0]])
           Demo.w0 eq_refl eq_refl).
  - by vm_compute.
  - by vm_compute.
Defined.

(** X3 at the empty batch. *)
Lemma infer_uncountable_batch_witness :
  exists w',
    infer Demo.env Demo.loaded_engine ∅ Demo.w0
    = (Raise (KeyError "input_ids"), w')
    /\ (KeyError "input_ids" = KeyError "input_ids"
        \/ KeyError "input_ids" = TypeError "len() of unsized object"
        \/ KeyError "input_ids" = KeyError "attention_mask")
    /\ value (REQUEST_COUNT (metrics w')) ("error", "bert-base-uncased")
       = (value (REQUEST_COUNT (metrics Demo.w0)) ("error", "bert-base-uncased")
          + 1)%Qc
    /\ value (REQUEST_COUNT (metrics w')) ("success", "bert-base-uncased")
       = value (REQUEST_COUNT (metrics Demo.w0)) ("success", "bert-base-uncased")
    /\ TOKENS_PROCESSED (metrics w') = TOKENS_PROCESSED (metrics Demo.w0)
    /\ BATCH_SIZE (metrics w') = BATCH_SIZE (metrics Demo.w0)
    /\ REQUEST_LATENCY (metrics w') = REQUEST_LATENCY (metrics Demo.w0).
Proof.
  apply (infer_uncountable_batch Demo.env Demo.loaded_engine ∅
           (KeyError "input_ids") Demo.w0).
  by vm_compute.
Defined.

(** X5 at a session that returns the embeddings only. *)
Lemma single_output_has_no_pooler_witness :
  exists r w',
    infer Demo.env Demo.hidden_only_engine Demo.batch Demo.w0 = (Return r, w')
    /\ res_last_hidden_state r
       = build (fun _ => 0%Qc) [1%nat; 2%nat; 768%nat] []
    /\ res_pooler_output r = None
    /\ forall request w0,
         predict_inputs Demo.env Demo.hidden_only_engine request w0
         = (Return Demo.batch, Demo.w0) ->
         is_list (build (fun _ : list nat => 0%Qc) [1%nat; 2%nat; 768%nat] []) ->
         exists resp,
           predict Demo.env (Some Demo.hidden_only_engine) request w0
           = (Return resp, w')
           /\ pooler_output resp = None
           /\ embeddings resp
              = (if include_embeddings request
                 then Some (build (fun _ => 0%Qc) [1%nat; 2%nat; 768%nat] [])
                 else None).
Proof.
  apply (single_output_has_no_pooler Demo.env Demo.hidden_only_engine
           Demo.hidden_only_session Demo.batch [Demo.row [101; 102]]
           (Arr [Demo.row [1; 1]]) (Arr [Demo.row [0; 0]])
           (build (fun _ => 0%Qc) [1%nat; 2%nat; 768%nat] []) Demo.w0
           eq_refl eq_refl eq_refl eq_refl eq_refl).
  by vm_compute.
Defined.

(** X6 at a session that returns nothing. *)
Lemma no_output_is_an_error_witness :
  exists w',
    infer Demo.env Demo.silent_engine Demo.batch Demo.w0
    = (Raise (IndexError "list index out of range"), w')
    /\ value (REQUEST_COUNT (metrics w')) ("error", "bert-base-uncased")
       = (value (REQUEST_COUNT (metrics Demo.w0)) ("error", "bert-base-uncased")
          + 1)%Qc
    /\ value (REQUEST_COUNT (metrics w')) ("success", "bert-base-uncased")
       = value (REQUEST_COUNT (metrics Demo.w0)) ("success", "bert-base-uncased")
    /\ TOKENS_PROCESSED (metrics w') = TOKENS_PROCESSED (metrics Demo.w0)
    /\ BATCH_SIZE (metrics w') = BATCH_SIZE (metrics Demo.w0).
Proof.
  apply (no_output_is_an_error Demo.env Demo.silent_engine Demo.silent_session
           Demo.batch [Demo.row [101; 102]] (Arr [Demo.row [1; 1]])
           (Arr [Demo.row [0; 0]]) Demo.w0
           eq_refl eq_refl eq_refl eq_refl eq_refl).
Defined.

Lemma demo_batch_nonneg mask :
  Demo.batch !! "attention_mask" = Some mask -> 0 <= np_sum mask.
Proof. intros Hm. vm_compute in Hm. injection Hm as <-. by vm_compute. Qed.

(** X7 at a call whose session fails. *)
Lemma infer_counted_once_witness :
  match infer Demo.env Demo.failing_engine Demo.batch Demo.w0 with
  | (Return _, w') =>
      value (REQUEST_COUNT (metrics w')) ("success", "bert-base-uncased")
      = (value (REQUEST_COUNT (metrics Demo.w0)) ("success", "bert-base-uncased")
         + 1)%Qc
      /\ value (REQUEST_COUNT (metrics w')) ("error", "bert-base-uncased")
         = value (REQUEST_COUNT (metrics Demo.w0)) ("error", "bert-base-uncased")
  | (Raise e, w') =>
      if isinstance_Exception e
      then value (REQUEST_COUNT (metrics w')) ("success", "bert-base-uncased")
           = value (REQUEST_COUNT (metrics Demo.w0)) ("success", "bert-base-uncased")
           /\ value (REQUEST_COUNT (metrics w')) ("error", "bert-base-uncased")
              = (value (REQUEST_COUNT (metrics Demo.w0))
                   ("error", "bert-base-uncased") + 1)%Qc
      else value (REQUEST_COUNT (metrics w')) ("success", "bert-base-uncased")
           = value (REQUEST_COUNT (metrics Demo.w0)) ("success", "bert-base-uncased")
           /\ value (REQUEST_COUNT (metrics w')) ("error", "bert-base-uncased")
              = value (REQUEST_COUNT (metrics Demo.w0)) ("error", "bert-base-uncased")
  end.
Proof.
  apply (infer_counted_once Demo.env Demo.failing_engine Demo.batch Demo.w0
           demo_batch_nonneg).
Defined.

(** X8 at the request without ["token_type_ids"]. *)
Lemma normalisation_failure_is_not_counted_witness :
  predict Demo.env (Some Demo.mock_engine)
    (mkRequest None None (Some Demo.two_keys) false) Demo.w0
  = (Raise (KeyError "token_type_ids"), Demo.w0)
  /\ metrics (snd (predict Demo.env (Some Demo.mock_engine)
                     (mkRequest None None (Some Demo.two_keys) false) Demo.w0))
     = metrics Demo.w0.
Proof.
  apply (normalisation_failure_is_not_counted Demo.env Demo.mock_engine
           (mkRequest None None (Some Demo.two_keys) false) Demo.w0
           (KeyError "token_type_ids") Demo.w0).
  by vm_compute.
Defined.

(** X9 at the text "hello". *)
Lemma single_text_is_a_batch_of_one_witness :
  predict Demo.env (Some Demo.mock_engine)
    (mkRequest (Some "hello") None None false) Demo.w0
  = predict Demo.env (Some Demo.mock_engine)
      (mkRequest None (Some ["hello"]) None false) Demo.w0.
Proof.
  apply (proj1 (single_text_is_a_batch_of_one Demo.env (Some Demo.mock_engine)
                  "hello" None None false Demo.w0
                  ltac:(discriminate) (or_introl eq_refl) (or_introl eq_refl))).
Defined.

Lemma demo_loaded_run :
  run Demo.bert_session
    (feed (Arr [Demo.row [101; 102]]) (Arr [Demo.row [1; 1]])
       (Arr [Demo.row [0; 0]]))
  = Return [build (fun _ => 0%Qc) [1%nat; 2%nat; 768%nat] [];
            build (fun _ => 0%Qc) [1%nat; 768%nat] []].
Proof. by vm_compute. Qed.

Lemma demo_predict_with_embeddings :
  exists resp w',
    predict Demo.env (Some Demo.loaded_engine)
      (mkRequest None None (Some Demo.pretokenized) true) Demo.w0
    = (Return resp, w').
Proof.
  pose proof (infer_try_loaded Demo.env Demo.loaded_engine Demo.bert_session
                Demo.batch [Demo.row [101; 102]] (Arr [Demo.row [1; 1]])
                (Arr [Demo.row [0; 0]]) _ _
                (entered Demo.loaded_engine Demo.w0)
                eq_refl eq_refl eq_refl eq_refl demo_loaded_run
                ltac:(by vm_compute)) as Htry.
  assert (Hinfer := try_except_finally_Return _ (infer_except Demo.loaded_engine)
                      Demo.loaded_engine _ _ _ Htry).
  rewrite <- infer_unfold in Hinfer.
  eexists. eexists.
  eapply predict_response;
    [exact pretokenized_normalised | exact Hinfer | exact I |].
  cbn [res_pooler_output head]. intros p Hp. injection Hp as <-. exact I.
Qed.

(** X10 at a pre-tokenized request to a loaded engine. *)
Lemma include_embeddings_only_adds_embeddings_witness :
  exists resp w',
    predict Demo.env (Some Demo.loaded_engine)
      (mkRequest None None (Some Demo.pretokenized) true) Demo.w0
    = (Return resp, w')
    /\ predict Demo.env (Some Demo.loaded_engine)
         (mkRequest None None (Some Demo.pretokenized) false) Demo.w0
       = (Return (mkResponse None (pooler_output resp) (latency_ms resp)
                    (batch_size resp) (tokens_processed resp)),
          w').
Proof.
  destruct demo_predict_with_embeddings as (resp & w' & Hp).
  exists resp, w'. split; [exact Hp |].
  exact (include_embeddings_only_adds_embeddings Demo.env
           (Some Demo.loaded_engine) None None (Some Demo.pretokenized)
           Demo.w0 resp w' Hp).
Defined.

(** X12 at an environment without the model file. *)
Lemma degraded_startup_still_serves_witness :
  exists engine w1,
    lifespan_startup Demo.env Demo.w0 = (Return (Some engine), w1)
    /\ health (Some engine) = mkHealth "healthy" false
    /\ (forall request w2 batch w3 rows mask,
          predict_inputs Demo.env engine request w2 = (Return batch, w3) ->
          batch !! "input_ids" = Some (Arr rows) ->
          batch !! "attention_mask" = Some mask ->
          attention_mask_ok mask ->
          http_status (fst (predict Demo.env (Some engine) request w2)) = 200)
    /\ (forall request w2,
          http_status (fst (predict Demo.env lifespan_shutdown request w2)) = 503)
    /\ health lifespan_shutdown = mkHealth "healthy" false.
Proof.
  apply (degraded_startup_still_serves Demo.env Demo.tokenizer 4 2 Demo.w0
           eq_refl eq_refl eq_refl eq_refl).
  by vm_compute.
Defined.

(** X13 when the tokenizer cannot be resolved. *)
Lemma load_failures_are_fatal_witness :
  load Demo.offline_env Demo.mock_engine Demo.w0
  = (Raise (ExternalError "OSError"), ticked Demo.w0).
Proof.
  apply (proj1 (load_failures_are_fatal Demo.offline_env Demo.mock_engine
                  (ExternalError "OSError") Demo.w0) eq_refl).
Defined.

(** X14 when a configured path is missing: with the default path in
    place the default is taken, with neither the configured one is kept. *)
Lemma resolve_MODEL_PATH_exists_witness :
  resolve_MODEL_PATH (Some "/data/model.onnx")
    (String.eqb "/models/bert-base-uncased/model.onnx")
  = "/models/bert-base-uncased/model.onnx"
  /\ resolve_MODEL_PATH (Some "/data/model.onnx") (fun _ => false)
     = "/data/model.onnx".
Proof.
  split.
  - apply (proj1 (resolve_MODEL_PATH_exists (Some "/data/model.onnx")
                    (String.eqb "/models/bert-base-uncased/model.onnx"))
             eq_refl eq_refl).
  - apply (proj1 (proj2 (resolve_MODEL_PATH_exists (Some "/data/model.onnx")
                           (fun _ => false)))
             (or_intror eq_refl)).
Defined.

Lemma demo_tokenize :
  tokenize Demo.mock_engine ["hi"] 4 Demo.w0
  = (Return (feed (Arr [Demo.row [101; 1104; 1105; 102]])
               (Arr [Demo.row [1; 1; 1; 1]]) (Arr [Demo.row [0; 0; 0; 0]])),
     Demo.w0).
Proof. by vm_compute. Qed.

(** X15 at a text of two characters. *)
Lemma tokenize_gives_three_int64_tensors_witness :
  Demo.w0 = Demo.w0
  /\ dom (feed (Arr [Demo.row [101; 1104; 1105; 102]])
            (Arr [Demo.row [1; 1; 1; 1]]) (Arr [Demo.row [0; 0; 0; 0]]))
     = {["input_ids"; "attention_mask"; "token_type_ids"]}
  /\ forall k a,
       feed (Arr [Demo.row [101; 1104; 1105; 102]])
         (Arr [Demo.row [1; 1; 1; 1]]) (Arr [Demo.row [0; 0; 0; 0]]) !! k
       = Some a ->
       Forall (fun z => - 2 ^ 63 <= z < 2 ^ 63) (entries a).
Proof.
  apply (tokenize_gives_three_int64_tensors Demo.mock_engine ["hi"] 4 Demo.w0
           _ Demo.w0 demo_tokenize).
Defined.

(** ** An execution failure seen from the endpoint *)

(** X4. When the request is normalised to a batch whose counts are
    computable and the session's [run] raises an exception [e], [predict]
    raises that same [e] (nothing catches or wraps it), the failure has
    been counted once as an error, and unless [e] is itself an
    [HTTPException] the caller gets status 500. *)
Theorem execution_failure_reaches_the_caller env self sess request batch
  rows mask c e w w1 :
  session self = Some sess ->
  predict_inputs env self request w = (Return batch, w1) ->
  batch !! "input_ids" = Some (Arr rows) ->
  batch !! "attention_mask" = Some mask ->
  batch !! "token_type_ids" = Some c ->
  run sess (feed (Arr rows) mask c) = Raise e ->
  isinstance_Exception e = true ->
  exists w',
    predict env (Some self) request w = (Raise e, w')
    /\ value (REQUEST_COUNT (metrics w')) ("error", model_name self)
       = (value (REQUEST_COUNT (metrics w)) ("error", model_name self) + 1)%Qc
    /\ ((forall status_code detail, e ≠ HTTPException status_code detail) ->
        http_status (fst (predict env (Some self) request w)) = 500).
Proof.
  intros Hsess Hin Hids Hmask Htt Hrun He.
  pose proof (stateless_predict_inputs env self request w) as Hw.
  rewrite Hin in Hw. cbn [snd] in Hw. subst w1.
  assert (Htry : infer_try env self batch (entered self w)
                 = (Raise e, ticked (entered self w))).
  { rewrite (infer_try_counted env self batch rows mask _ Hids Hmask).
    apply bind_Raise. unfold infer_execute. rewrite Hsess.
    erewrite bind_Return by (apply getitem_Some, Hids).
    erewrite bind_Return by (apply getitem_Some, Hmask).
    erewrite bind_Return by (apply getitem_Some, Htt).
    apply bind_Raise. unfold lift. by rewrite Hrun. }
  assert (Hinfer := try_except_finally_Raise self _ _ _ _ Htry He).
  rewrite <- infer_unfold in Hinfer.
  assert (Hp : predict env (Some self) request w
               = (Raise e,
                  snd (infer_finally self
                         (snd (Counter_inc set_REQUEST_COUNT
                                 ("error", model_name self) 1%Qc
                                 (ticked (entered self w))))))).
  { unfold predict. erewrite bind_Return by exact Hin.
    by apply bind_Raise. }
  eexists. split; [exact Hp |]. split.
  - rewrite Counter_inc_one. metrics_simpl. values.
  - intros Hhttp. rewrite Hp. cbn [fst http_status].
    destruct e; try reflexivity. by destruct (Hhttp status_code detail).
Qed.

(** X4 at a session whose [run] fails. *)
Lemma execution_failure_reaches_the_caller_witness :
  exists w',
    predict Demo.env (Some Demo.failing_engine)
      (mkRequest None None (Some Demo.pretokenized) false) Demo.w0
    = (Raise (ExternalError "RuntimeException"), w')
    /\ value (REQUEST_COUNT (metrics w')) ("error", "bert-base-uncased")
       = (value (REQUEST_COUNT (metrics Demo.w0)) ("error", "bert-base-uncased")
          + 1)%Qc
    /\ ((forall status_code detail,
           ExternalError "RuntimeException" ≠ HTTPException status_code detail) ->
        http_status
          (fst (predict Demo.env (Some Demo.failing_engine)
                  (mkRequest None None (Some Demo.pretokenized) false) Demo.w0))
        = 500).
Proof.
  apply (execution_failure_reaches_the_caller Demo.env Demo.failing_engine
           Demo.failing_session
           (mkRequest None None (Some Demo.pretokenized) false) Demo.batch
           [Demo.row [101; 102]] (Arr [Demo.row [1; 1]]) (Arr [Demo.row [0; 0]])
           (ExternalError "RuntimeException") Demo.w0 Demo.w0
           eq_refl ltac:(by vm_compute) eq_refl eq_refl eq_refl eq_refl eq_refl).
Defined.
